(** * Faster Whisper API: the model manager and the transcription handler

    A shallow embedding of [main.py].  The module keeps a process-wide model
    and its description ([model], [model_info]), offers [load_model] with a
    CPU fallback, and serves [transcribe_audio], which stages the upload in a
    temporary file, runs the engine, reshapes the segments and removes the
    file in a [finally] block.

    The speech engine, the file system and the clock are outside the program:
    their behaviour is a value of type [Env] over which every statement
    quantifies.  The program's own effects (two globals, the temporary file,
    raised exceptions) are threaded through a state-and-exception monad; a
    trace of the external calls, in program order, is kept alongside so that
    ordering properties can be stated.

    Left out: exceptions that are not derived from [Exception] (no
    [except] clause of the program catches those).  The [print] calls of
    the handler are modelled by the exception they may raise
    ([print_fault]): they sit inside its [try] block and its [except]
    clause, so such an exception changes how a request ends.  The [print]
    calls of [load_model] and [lifespan] are taken to return; a statement
    that would not survive one of them raising on the text of an argument
    carries that assumption as a hypothesis on [print_fault]. *)

From stdpp Require Import base strings list gmap.
From Stdlib Require Import ZArith QArith Lia.

Local Open Scope Z_scope.
Local Open Scope list_scope.

(** ** Python values *)

(** A Python [str] is a sequence of Unicode code points. *)
Abbreviation pystr := (list N).

(** An ASCII literal of the source as a [str]. *)
Definition py (s : string) : pystr :=
  map Ascii.N_of_ascii (String.list_ascii_of_string s).

(** Python floats are only copied by this program, except for one
    subtraction and two roundings which are left to the environment. *)
Definition float := Q.

(** ** What the engine hands out *)

(** [faster_whisper.Word] *)
Record Word := {
  word : pystr;
  w_start : float;
  w_end : float
}.

(** The [words] attribute of a segment: the attribute may be missing
    ([hasattr] is false), be [None], or be a list. *)
Inductive WordsAttr :=
| NoWordsAttr
| WordsNone
| WordsList (ws : list Word).

(** A segment yielded by the engine. *)
Record Segment := {
  start : float;
  end_ : float;
  text : pystr;
  words : WordsAttr
}.

(** [info], the second component of what [model.transcribe] returns. *)
Record TranscriptionInfo := {
  language : pystr;
  language_probability : float
}.

(** The lazy segment sequence: a single-pass finite generator that yields
    [gen_items] one by one and then either stops or raises. *)
Record Generator := {
  gen_items : list Segment;
  gen_fault : option pystr
}.

(** The object built by [WhisperModel(size, device=..., compute_type=...)],
    identified by the arguments it was built from. *)
Record WhisperModelObj := {
  wm_size : pystr;
  wm_device : pystr;
  wm_compute_type : pystr
}.

(** ** Program data *)

(** The [model_info] dictionary: keys ["size"], ["device"], ["loaded"]. *)
Record ModelInfo := {
  size : pystr;
  device : pystr;
  loaded : bool
}.

(** What [load_model] returns: [{"success": .., "message": ..}] or
    [{"success": .., "error": ..}]; an absent key is [None]. *)
Record LoadResult := {
  success : bool;
  message : option pystr;
  error : option pystr
}.

(** One entry of a segment's ["words"] list in the response. *)
Record WordDict := {
  wd_word : pystr;
  wd_start : float;
  wd_end : float
}.

(** [segment_dict]: keys ["start"], ["end"], ["text"] and, only when it was
    assigned, ["words"]. *)
Record SegmentDict := {
  sd_start : float;
  sd_end : float;
  sd_text : pystr;
  sd_words : option (list WordDict)
}.

(** The dictionary returned by a successful [transcribe_audio]. *)
Record Response := {
  r_success : bool;
  r_language : pystr;
  r_language_probability : float;
  r_duration : float;
  r_model : pystr;
  r_device : pystr;
  r_text : pystr;
  r_segments : list SegmentDict
}.

(** The form fields and the upload of one [/transcribe] request. *)
Record Request := {
  audio_filename : pystr;
  audio_file : list N;
  req_language : pystr;
  beam_size : Z;
  vad_filter : bool;
  word_timestamps : bool
}.

(** ** Exceptions and outcomes *)

(** Exceptions that leave a handler.  [Exception t] is any exception raised
    by a library call, [t] being its [str()]; [HTTPException] is the one the
    handler raises itself. *)
Inductive Exn :=
| Exception (t : pystr)
| HTTPException (status_code : Z) (detail : pystr).

Inductive Outcome (E A : Type) :=
| Return (a : A)
| Raise (e : E).
Arguments Return {E A} a.
Arguments Raise {E A} e.

(** ** The world *)

(** External calls, in the order the program makes them. *)
Inductive Event :=
| EvConstruct (model_size dev compute_type : pystr)
| EvCreateTemp (path : pystr)
| EvCopy (path : pystr)
| EvClose (path : pystr)
| EvTranscribe (m : WhisperModelObj) (path : pystr) (lang : option pystr)
               (beam : Z) (vad wt : bool)
| EvYield (i : nat)                        (* the generator handed out item i *)
| EvExhausted                              (* the generator ended normally *)
| EvExists (path : pystr) (b : bool)       (* os.path.exists answered b *)
| EvUnlink (path : pystr).                 (* os.unlink removed the file *)

(** The two globals of the module, the temporary files present, and the
    trace.  [model] is [None] while the global is unbound. *)
Record World := {
  model : option WhisperModelObj;
  model_info : ModelInfo;
  fs : gset pystr;
  trace : list Event
}.

(** The behaviour of everything outside the program.  A fault is the text
    of the exception a call raises; [None] means the call returns. *)
Record Env := {
  (* WhisperModel(size, device, compute_type) *)
  construct_fault : pystr -> pystr -> pystr -> option pystr;
  (* os.path.splitext(name)[1] *)
  splitext_ext : pystr -> pystr;
  (* tempfile.NamedTemporaryFile(delete=False, suffix=..) *)
  tempfile_fault : option pystr;
  tempfile_name : pystr -> pystr;
  (* shutil.copyfileobj, temp_file.close, os.unlink *)
  copyfileobj_fault : option pystr;
  close_fault : option pystr;
  unlink_fault : option pystr;
  (* model.transcribe(path, language, beam_size, vad_filter, word_timestamps) *)
  engine_transcribe :
    WhisperModelObj -> pystr -> option pystr -> Z -> bool -> bool ->
    Outcome pystr (Generator * TranscriptionInfo);
  (* what else happens to the temporary directory while the engine runs *)
  fs_interference : gset pystr -> gset pystr;
  (* time.time(), as a function of how much has happened *)
  time_time : nat -> float;
  (* float subtraction and round(x, 2) *)
  float_sub : float -> float -> float;
  round2 : float -> float;
  (* print(text): None when the text is written, the exception's text when
     writing it raises (an encoding error, a closed stream) *)
  print_fault : pystr -> option pystr;
  (* the text of f"{x:.2f}" *)
  format_2f : float -> pystr
}.

(** ** The monad *)

Definition M (E A : Type) : Type := World -> Outcome E A * World.

Definition ret {E A : Type} (a : A) : M E A := fun w => (Return a, w).

Definition raise {E A : Type} (e : E) : M E A := fun w => (Raise e, w).

Definition bind {E A B : Type} (c : M E A) (k : A -> M E B) : M E B :=
  fun w =>
    match c w with
    | (Return a, w') => k a w'
    | (Raise e, w') => (Raise e, w')
    end.

Declare Scope py_scope.
Delimit Scope py_scope with py.
Notation "x <- c ;; k" := (bind c (fun x => k))
  (at level 100, c at next level, right associativity) : py_scope.
Notation "c ;;; k" := (bind c (fun _ => k))
  (at level 100, right associativity) : py_scope.
Local Open Scope py_scope.

(** [try: body  except Exception as e: handler e].  The body can only raise
    library exceptions; the handler may raise anything. *)
Definition try_except {E A : Type} (body : M pystr A) (handler : pystr -> M E A) : M E A :=
  fun w =>
    match body w with
    | (Return a, w') => (Return a, w')
    | (Raise e, w') => handler e w'
    end.

(** [try: body  finally: fin].  [fin] always runs; an exception raised by
    [fin] replaces the outcome of [body]. *)
Definition try_finally {E A : Type} (body : M E A) (fin : M E unit) : M E A :=
  fun w =>
    match body w with
    | (r, w') =>
        match fin w' with
        | (Return _, w'') => (r, w'')
        | (Raise e, w'') => (Raise e, w'')
        end
    end.

(** A library exception that nothing catches. *)
Definition uncaught {A : Type} (c : M pystr A) : M Exn A :=
  fun w =>
    match c w with
    | (Return a, w') => (Return a, w')
    | (Raise t, w') => (Raise (Exception t), w')
    end.

(** State access. *)
Definition log {E : Type} (e : Event) : M E unit :=
  fun w => (Return tt,
            {| model := model w; model_info := model_info w; fs := fs w;
               trace := trace w ++ [e] |}).

Definition set_model {E : Type} (m : WhisperModelObj) : M E unit :=
  fun w => (Return tt,
            {| model := Some m; model_info := model_info w; fs := fs w;
               trace := trace w |}).

Definition set_model_info {E : Type} (mi : ModelInfo) : M E unit :=
  fun w => (Return tt,
            {| model := model w; model_info := mi; fs := fs w;
               trace := trace w |}).

Definition set_fs {E : Type} (f : gset pystr) : M E unit :=
  fun w => (Return tt,
            {| model := model w; model_info := model_info w; fs := f;
               trace := trace w |}).

Definition get_model_info {E : Type} : M E ModelInfo :=
  fun w => (Return (model_info w), w).

Definition get_fs {E : Type} : M E (gset pystr) :=
  fun w => (Return (fs w), w).

(** Reading the global [model]; a [NameError] while it is unbound. *)
Definition get_model : M pystr WhisperModelObj :=
  fun w =>
    match model w with
    | Some m => (Return m, w)
    | None => (Raise (py "name 'model' is not defined"), w)
    end.

Definition fault_or {A : Type} (f : option pystr) (a : A) : M pystr A :=
  match f with
  | Some t => raise t
  | None => ret a
  end.

(** ** Pure parts of the handler *)

(** The characters [str.strip()] removes: those for which the interpreter's
    [Py_UNICODE_ISSPACE] holds. *)
Definition isspace (c : N) : bool :=
  ((9 <=? c) && (c <=? 13) || (28 <=? c) && (c <=? 32)
   || (c =? 133) || (c =? 160) || (c =? 5760)
   || (8192 <=? c) && (c <=? 8202)
   || (c =? 8232) || (c =? 8233) || (c =? 8239) || (c =? 8287)
   || (c =? 12288))%N.

Fixpoint lstrip (s : pystr) : pystr :=
  match s with
  | [] => []
  | c :: r => if isspace c then lstrip r else s
  end.

Definition rstrip (s : pystr) : pystr := rev (lstrip (rev s)).

(** [s.strip()]: the left end is trimmed, then the right end of what
    remains. *)
Definition strip (s : pystr) : pystr := rstrip (lstrip s).

(** [hasattr(segment, 'words')] *)
Definition hasattr_words (segment : Segment) : bool :=
  match words segment with
  | NoWordsAttr => false
  | _ => true
  end.

(** The truth value of [segment.words]: [None] and the empty list are
    false. *)
Definition words_truthy (segment : Segment) : bool :=
  match words segment with
  | WordsList (_ :: _) => true
  | _ => false
  end.

(** Iterating [segment.words]. *)
Definition words_iter (segment : Segment) : list Word :=
  match words segment with
  | WordsList ws => ws
  | _ => []
  end.

(** [{"word": word.word, "start": word.start, "end": word.end}] *)
Definition word_dict (w : Word) : WordDict :=
  {| wd_word := word w; wd_start := w_start w; wd_end := w_end w |}.

(** The dictionary built for one segment, after the optional assignment of
    ["words"]. *)
Definition segment_dict (segment : Segment) : SegmentDict :=
  let d := {| sd_start := start segment;
              sd_end := end_ segment;
              sd_text := text segment;
              sd_words := None |} in
  if hasattr_words segment && words_truthy segment then
    {| sd_start := sd_start d;
       sd_end := sd_end d;
       sd_text := sd_text d;
       sd_words := Some (map word_dict (words_iter segment)) |}
  else d.

(** One round of [for segment in segments_list], on the pair
    [(segments_data, full_text)]. *)
Definition loop_body (acc : list SegmentDict * pystr) (segment : Segment)
  : list SegmentDict * pystr :=
  (fst acc ++ [segment_dict segment], snd acc ++ (text segment ++ py " ")).

Definition segments_loop (segments_list : list Segment) : list SegmentDict * pystr :=
  fold_left loop_body segments_list ([], []).

(** [None if language == "auto" else language] *)
Definition lang_param (language : pystr) : option pystr :=
  if decide (language = py "auto") then None else Some language.

(** ** The model manager *)

Section Program.

Variable env : Env.

(** [WhisperModel(model_size, device=dev, compute_type=ct)] *)
Definition WhisperModel (model_size dev ct : pystr) : M pystr WhisperModelObj :=
  log (EvConstruct model_size dev ct) ;;;
  fault_or (construct_fault env model_size dev ct)
           {| wm_size := model_size; wm_device := dev; wm_compute_type := ct |}.

(** [load_model(model_size, device)].  The lines it prints are taken to be
    written. *)
Definition load_model {E : Type} (model_size dev : pystr) : M E LoadResult :=
  try_except
    (if decide (dev = py "cuda") then
       m <- WhisperModel model_size (py "cuda") (py "float16") ;;
       set_model m ;;;
       set_model_info {| size := model_size; device := py "cuda"; loaded := true |} ;;;
       ret {| success := true;
              message := Some (py "Successfully loaded GPU model: " ++ model_size);
              error := None |}
     else
       m <- WhisperModel model_size (py "cpu") (py "int8") ;;
       set_model m ;;;
       set_model_info {| size := model_size; device := py "cpu"; loaded := true |} ;;;
       ret {| success := true;
              message := Some (py "Successfully loaded CPU model: " ++ model_size);
              error := None |})
    (fun e =>
       if decide (dev = py "cuda") then
         try_except
           (m <- WhisperModel (py "small") (py "cpu") (py "int8") ;;
            set_model m ;;;
            set_model_info {| size := py "small"; device := py "cpu"; loaded := true |} ;;;
            ret {| success := true;
                   message := Some (py "GPU load failed, fallback to CPU model (small)");
                   error := None |})
           (fun e2 =>
              set_model_info {| size := []; device := []; loaded := false |} ;;;
              ret {| success := false;
                     message := None;
                     error := Some (py "Model load failed: " ++ e2) |})
       else
         set_model_info {| size := []; device := []; loaded := false |} ;;;
         ret {| success := false;
                message := None;
                error := Some (py "CPU model load failed: " ++ e) |}).

(** The defaults of [def load_model(model_size="large-v3", device="cuda")]. *)
Definition default_model_size : pystr := py "large-v3".
Definition default_device : pystr := py "cuda".

(** ** The transcription handler *)

(** [tempfile.NamedTemporaryFile(delete=False, suffix=suffix)]; the file
    object is represented by its [name]. *)
Definition NamedTemporaryFile (suffix : pystr) : M pystr pystr :=
  fault_or (tempfile_fault env) tt ;;;
  let name := tempfile_name env suffix in
  log (EvCreateTemp name) ;;;
  f <- get_fs ;;
  set_fs ({[name]} ∪ f) ;;;
  ret name.

(** [shutil.copyfileobj(audio.file, temp_file)] *)
Definition copyfileobj (data : list N) (temp_file : pystr) : M pystr unit :=
  log (EvCopy temp_file) ;;;
  fault_or (copyfileobj_fault env) tt.

(** [temp_file.close()] *)
Definition close (temp_file : pystr) : M pystr unit :=
  log (EvClose temp_file) ;;;
  fault_or (close_fault env) tt.

(** [time.time()] *)
Definition time {E : Type} : M E float :=
  fun w => (Return (time_time env (length (trace w))), w).

(** [print(text)] *)
Definition print_ (text : pystr) : M pystr unit :=
  fault_or (print_fault env text) tt.

(** [model.transcribe(path, language=.., beam_size=.., vad_filter=..,
    word_timestamps=..)] *)
Definition model_transcribe (m : WhisperModelObj) (path : pystr)
    (lang : option pystr) (beam : Z) (vad wt : bool)
  : M pystr (Generator * TranscriptionInfo) :=
  log (EvTranscribe m path lang beam vad wt) ;;;
  f <- get_fs ;;
  set_fs (fs_interference env f) ;;;
  match engine_transcribe env m path lang beam vad wt with
  | Return r => ret r
  | Raise t => raise t
  end.

(** Pulling every item out of the generator. *)
Fixpoint drain (items : list Segment) (i : nat) : M pystr unit :=
  match items with
  | [] => ret tt
  | _ :: rest => log (EvYield i) ;;; drain rest (S i)
  end.

(** [list(segments_generator)] *)
Definition list_ (g : Generator) : M pystr (list Segment) :=
  drain (gen_items g) 0 ;;;
  fault_or (gen_fault g) tt ;;;
  log EvExhausted ;;;
  ret (gen_items g).

(** [os.path.exists(path)] *)
Definition os_path_exists {E : Type} (path : pystr) : M E bool :=
  f <- get_fs ;;
  let b := bool_decide (path ∈ f) in
  log (EvExists path b) ;;;
  ret b.

(** [os.unlink(path)] *)
Definition os_unlink (path : pystr) : M pystr unit :=
  f <- get_fs ;;
  if decide (path ∈ f) then
    fault_or (unlink_fault env) tt ;;;
    log (EvUnlink path) ;;;
    set_fs (f ∖ {[path]})
  else raise (py "No such file or directory").

(** [# Ensure model is loaded] *)
Definition ensure_model : M Exn unit :=
  mi <- get_model_info ;;
  if negb (loaded mi) then
    load_result <- load_model default_model_size default_device ;;
    if negb (success load_result) then
      raise (HTTPException 500 (py "Model loading failed"))
    else ret tt
  else ret tt.

(** The body of the [try] block. *)
Definition transcribe_body (req : Request) (temp_file : pystr) : M pystr Response :=
  copyfileobj (audio_file req) temp_file ;;;
  close temp_file ;;;
  let lang_param := lang_param (req_language req) in
  print_ (py "Transcribing file: " ++ audio_filename req) ;;;
  start_time <- time ;;
  m <- get_model ;;
  r <- model_transcribe m temp_file lang_param
         (beam_size req) (vad_filter req) (word_timestamps req) ;;
  let segments_generator := fst r in
  let info := snd r in
  now <- time ;;
  let transcribe_time := float_sub env now start_time in
  print_ (py "Transcribe time: " ++ format_2f env transcribe_time ++ py "s") ;;;
  print_ (py "Detected language: " ++ language info ++ py " (prob: "
          ++ format_2f env (language_probability info) ++ py ")") ;;;
  segments_list <- list_ segments_generator ;;
  let segments_data := fst (segments_loop segments_list) in
  let full_text := snd (segments_loop segments_list) in
  mi <- get_model_info ;;
  ret {| r_success := true;
         r_language := language info;
         r_language_probability := round2 env (language_probability info);
         r_duration := round2 env transcribe_time;
         r_model := size mi;
         r_device := device mi;
         r_text := strip full_text;
         r_segments := segments_data |}.

(** The [finally] block. *)
Definition cleanup (temp_file : pystr) : M Exn unit :=
  b <- os_path_exists temp_file ;;
  if b then uncaught (os_unlink temp_file) else ret tt.

(** [try: ... except Exception as e: print(...); raise HTTPException(500,
    str(e))].  An exception raised by the [print] of the [except] clause
    leaves the clause as it is. *)
Definition guarded_body (req : Request) (temp_file : pystr) : M Exn Response :=
  try_except
    (transcribe_body req temp_file)
    (fun e =>
       uncaught (print_ (py "Transcribe error: " ++ e)) ;;;
       raise (HTTPException 500 e)).

(** Everything from [# Create temp file] on. *)
Definition transcribe_staged (req : Request) : M Exn Response :=
  temp_file <- uncaught (NamedTemporaryFile (splitext_ext env (audio_filename req))) ;;
  try_finally (guarded_body req temp_file) (cleanup temp_file).

Definition transcribe_audio (req : Request) : M Exn Response :=
  ensure_model ;;;
  transcribe_staged req.

End Program.

(** * Vocabulary for the statements *)

(** ** Outcomes of [load_model] *)

(** The world after a model was built and recorded. *)
Definition loaded_world (w : World) (m : WhisperModelObj) (evs : list Event) : World :=
  {| model := Some m;
     model_info := {| size := wm_size m; device := wm_device m; loaded := true |};
     fs := fs w;
     trace := trace w ++ evs |}.

(** The world after a load that failed for good. *)
Definition unloaded_world (w : World) (evs : list Event) : World :=
  {| model := model w;
     model_info := {| size := []; device := []; loaded := false |};
     fs := fs w;
     trace := trace w ++ evs |}.

Definition gpu_model (model_size : pystr) : WhisperModelObj :=
  {| wm_size := model_size; wm_device := py "cuda"; wm_compute_type := py "float16" |}.

Definition cpu_model (model_size : pystr) : WhisperModelObj :=
  {| wm_size := model_size; wm_device := py "cpu"; wm_compute_type := py "int8" |}.

Definition construct_event (m : WhisperModelObj) : Event :=
  EvConstruct (wm_size m) (wm_device m) (wm_compute_type m).

Definition fault_of (env : Env) (m : WhisperModelObj) : option pystr :=
  construct_fault env (wm_size m) (wm_device m) (wm_compute_type m).

Arguments py : simpl never.

Ltac run_monad :=
  cbv beta iota zeta delta
    [try_except try_finally uncaught bind ret raise log set_model
     set_model_info set_fs get_fs get_model_info get_model fault_or
     model model_info fs trace].

Ltac pick_branch :=
  first [ rewrite decide_True by (reflexivity || assumption)
        | rewrite decide_False by assumption ].

(** The five ways a call can go. *)
Inductive load_run (env : Env) (model_size dev : pystr) (w : World)
  : LoadResult -> World -> Prop :=
| run_gpu_ok :
    dev = py "cuda" ->
    fault_of env (gpu_model model_size) = None ->
    load_run env model_size dev w
      {| success := true;
         message := Some (py "Successfully loaded GPU model: " ++ model_size);
         error := None |}
      (loaded_world w (gpu_model model_size) [construct_event (gpu_model model_size)])
| run_gpu_fallback e :
    dev = py "cuda" ->
    fault_of env (gpu_model model_size) = Some e ->
    fault_of env (cpu_model (py "small")) = None ->
    load_run env model_size dev w
      {| success := true;
         message := Some (py "GPU load failed, fallback to CPU model (small)");
         error := None |}
      (loaded_world w (cpu_model (py "small"))
         [construct_event (gpu_model model_size);
          construct_event (cpu_model (py "small"))])
| run_gpu_both_fail e e2 :
    dev = py "cuda" ->
    fault_of env (gpu_model model_size) = Some e ->
    fault_of env (cpu_model (py "small")) = Some e2 ->
    load_run env model_size dev w
      {| success := false;
         message := None;
         error := Some (py "Model load failed: " ++ e2) |}
      (unloaded_world w
         [construct_event (gpu_model model_size);
          construct_event (cpu_model (py "small"))])
| run_cpu_ok :
    dev <> py "cuda" ->
    fault_of env (cpu_model model_size) = None ->
    load_run env model_size dev w
      {| success := true;
         message := Some (py "Successfully loaded CPU model: " ++ model_size);
         error := None |}
      (loaded_world w (cpu_model model_size) [construct_event (cpu_model model_size)])
| run_cpu_fail e :
    dev <> py "cuda" ->
    fault_of env (cpu_model model_size) = Some e ->
    load_run env model_size dev w
      {| success := false;
         message := None;
         error := Some (py "CPU model load failed: " ++ e) |}
      (unloaded_world w [construct_event (cpu_model model_size)]).

(** ** Outcomes of the handler *)

(** The world with some more calls recorded. *)
Definition add_events (w : World) (evs : list Event) : World :=
  {| model := model w; model_info := model_info w; fs := fs w;
     trace := trace w ++ evs |}.

(** The world with another set of temporary files. *)
Definition with_fs (w : World) (f : gset pystr) : World :=
  {| model := model w; model_info := model_info w; fs := f;
     trace := trace w |}.

(** The events of pulling [n] items, the first one numbered [i]. *)
Definition yields (i n : nat) : list Event := map EvYield (seq i n).

(** The name of the staged file of a request. *)
Definition staged_path (env : Env) (req : Request) : pystr :=
  tempfile_name env (splitext_ext env (audio_filename req)).

(** The engine call the handler makes for a request. *)
Definition engine_call (env : Env) (req : Request) (m : WhisperModelObj) (path : pystr)
  : Outcome pystr (Generator * TranscriptionInfo) :=
  engine_transcribe env m path (lang_param (req_language req))
    (beam_size req) (vad_filter req) (word_timestamps req).

Definition transcribe_event (req : Request) (m : WhisperModelObj) (path : pystr) : Event :=
  EvTranscribe m path (lang_param (req_language req))
    (beam_size req) (vad_filter req) (word_timestamps req).

(** The dictionary a successful request returns. *)
Definition response_of (env : Env) (mi : ModelInfo) (info : TranscriptionInfo)
    (segments_list : list Segment) (start_time now : float) : Response :=
  {| r_success := true;
     r_language := language info;
     r_language_probability := round2 env (language_probability info);
     r_duration := round2 env (float_sub env now start_time);
     r_model := size mi;
     r_device := device mi;
     r_text := strip (snd (segments_loop segments_list));
     r_segments := fst (segments_loop segments_list) |}.

(** The line printed before the engine is called. *)
Definition file_line (req : Request) : pystr :=
  py "Transcribing file: " ++ audio_filename req.

(** The exception, if any, of the two lines printed after the engine
    returned; [n] is the length of the trace when the [try] block starts. *)
Definition report_fault (env : Env) (info : TranscriptionInfo) (n : nat)
  : option pystr :=
  match print_fault env
          (py "Transcribe time: "
           ++ format_2f env (float_sub env (time_time env (n + 3)) (time_time env (n + 2)))
           ++ py "s") with
  | Some t => Some t
  | None =>
      print_fault env
        (py "Detected language: " ++ language info ++ py " (prob: "
         ++ format_2f env (language_probability info) ++ py ")")
  end.

(** The ways the [try] block can go, with the world it leaves. *)
Inductive body_run (env : Env) (req : Request) (path : pystr) (w : World)
  : Outcome pystr Response -> World -> Prop :=
| body_copy_fault t :
    copyfileobj_fault env = Some t ->
    body_run env req path w (Raise t) (add_events w [EvCopy path])
| body_close_fault t :
    copyfileobj_fault env = None ->
    close_fault env = Some t ->
    body_run env req path w (Raise t) (add_events w [EvCopy path; EvClose path])
| body_print_fault t :
    copyfileobj_fault env = None ->
    close_fault env = None ->
    print_fault env (file_line req) = Some t ->
    body_run env req path w (Raise t) (add_events w [EvCopy path; EvClose path])
| body_no_model :
    copyfileobj_fault env = None ->
    close_fault env = None ->
    print_fault env (file_line req) = None ->
    model w = None ->
    body_run env req path w (Raise (py "name 'model' is not defined"))
      (add_events w [EvCopy path; EvClose path])
| body_engine_fault m t :
    copyfileobj_fault env = None ->
    close_fault env = None ->
    print_fault env (file_line req) = None ->
    model w = Some m ->
    engine_call env req m path = Raise t ->
    body_run env req path w (Raise t)
      (with_fs (add_events w [EvCopy path; EvClose path; transcribe_event req m path])
               (fs_interference env (fs w)))
| body_report_fault m g info t :
    copyfileobj_fault env = None ->
    close_fault env = None ->
    print_fault env (file_line req) = None ->
    model w = Some m ->
    engine_call env req m path = Return (g, info) ->
    report_fault env info (length (trace w)) = Some t ->
    body_run env req path w (Raise t)
      (with_fs (add_events w [EvCopy path; EvClose path; transcribe_event req m path])
               (fs_interference env (fs w)))
| body_generator_fault m g info t :
    copyfileobj_fault env = None ->
    close_fault env = None ->
    print_fault env (file_line req) = None ->
    model w = Some m ->
    engine_call env req m path = Return (g, info) ->
    report_fault env info (length (trace w)) = None ->
    gen_fault g = Some t ->
    body_run env req path w (Raise t)
      (with_fs (add_events w ([EvCopy path; EvClose path; transcribe_event req m path]
                              ++ yields 0 (length (gen_items g))))
               (fs_interference env (fs w)))
| body_done m g info :
    copyfileobj_fault env = None ->
    close_fault env = None ->
    print_fault env (file_line req) = None ->
    model w = Some m ->
    engine_call env req m path = Return (g, info) ->
    report_fault env info (length (trace w)) = None ->
    gen_fault g = None ->
    body_run env req path w
      (Return (response_of env (model_info w) info (gen_items g)
                 (time_time env (length (trace w) + 2))
                 (time_time env (length (trace w) + 3))))
      (with_fs (add_events w ([EvCopy path; EvClose path; transcribe_event req m path]
                              ++ yields 0 (length (gen_items g)) ++ [EvExhausted]))
               (fs_interference env (fs w))).

(** The ways the [finally] block can go. *)
Inductive cleanup_run (env : Env) (path : pystr) (w : World)
  : Outcome Exn unit -> World -> Prop :=
| cleanup_absent :
    path ∉ fs w ->
    cleanup_run env path w (Return tt) (add_events w [EvExists path false])
| cleanup_removed :
    path ∈ fs w ->
    unlink_fault env = None ->
    cleanup_run env path w (Return tt)
      (with_fs (add_events w [EvExists path true; EvUnlink path]) (fs w ∖ {[path]}))
| cleanup_fault t :
    path ∈ fs w ->
    unlink_fault env = Some t ->
    cleanup_run env path w (Raise (Exception t)) (add_events w [EvExists path true]).

Ltac run_handler :=
  cbv beta iota zeta delta
    [try_except try_finally uncaught bind ret raise log set_model
     set_model_info set_fs get_fs get_model_info get_model fault_or
     NamedTemporaryFile copyfileobj close time print_ model_transcribe list_
     os_path_exists os_unlink
     model model_info fs trace fst snd].

(** Kinds of calls. *)
Definition is_construct (e : Event) : bool :=
  match e with EvConstruct _ _ _ => true | _ => false end.

Definition is_create (e : Event) : bool :=
  match e with EvCreateTemp _ => true | _ => false end.


Definition is_yield (e : Event) : bool :=
  match e with EvYield _ => true | _ => false end.

Definition is_unlink (e : Event) : bool :=
  match e with EvUnlink _ => true | _ => false end.

Definition is_transcribe (e : Event) : bool :=
  match e with EvTranscribe _ _ _ _ _ _ => true | _ => false end.

(** The ways [# Ensure model is loaded] can go. *)
Inductive ensure_run (env : Env) (w : World) : Outcome Exn unit -> World -> Prop :=
| ensure_ready :
    loaded (model_info w) = true ->
    ensure_run env w (Return tt) w
| ensure_loaded lr w1 :
    loaded (model_info w) = false ->
    load_model env (E:=Exn) (py "large-v3") (py "cuda") w = (Return lr, w1) ->
    success lr = true ->
    ensure_run env w (Return tt) w1
| ensure_failed lr w1 :
    loaded (model_info w) = false ->
    load_model env (E:=Exn) (py "large-v3") (py "cuda") w = (Return lr, w1) ->
    success lr = false ->
    ensure_run env w (Raise (HTTPException 500 (py "Model loading failed"))) w1.

(** The world right after the temporary file was created. *)
Definition created (w : World) (path : pystr) : World :=
  with_fs (add_events w [EvCreateTemp path]) ({[path]} ∪ fs w).

(** What [except Exception as e] makes of the outcome of the body. *)
Definition guard (env : Env) (rb : Outcome pystr Response) : Outcome Exn Response :=
  match rb with
  | Return r => Return r
  | Raise t =>
      match print_fault env (py "Transcribe error: " ++ t) with
      | Some t' => Raise (Exception t')
      | None => Raise (HTTPException 500 t)
      end
  end.

(** What [finally] makes of the outcome of the guarded body. *)
Definition finish (rb : Outcome Exn Response) (rc : Outcome Exn unit)
  : Outcome Exn Response :=
  match rc with
  | Return _ => rb
  | Raise e => Raise e
  end.

(** The ways the handler can go once the model is there. *)
Inductive staged_run (env : Env) (req : Request) (w : World)
  : Outcome Exn Response -> World -> Prop :=
| staged_no_file t :
    tempfile_fault env = Some t ->
    staged_run env req w (Raise (Exception t)) w
| staged_file rb w3 rc w4 :
    tempfile_fault env = None ->
    transcribe_body env req (staged_path env req)
      (created w (staged_path env req)) = (rb, w3) ->
    body_run env req (staged_path env req) (created w (staged_path env req)) rb w3 ->
    cleanup env (staged_path env req) w3 = (rc, w4) ->
    cleanup_run env (staged_path env req) w3 rc w4 ->
    staged_run env req w (finish (guard env rb) rc) w4.

Inductive audio_run (env : Env) (req : Request) (w : World)
  : Outcome Exn Response -> World -> Prop :=
| audio_unavailable e w1 :
    ensure_run env w (Raise e) w1 ->
    audio_run env req w (Raise e) w1
| audio_staged w1 out w' :
    ensure_run env w (Return tt) w1 ->
    staged_run env req w1 out w' ->
    audio_run env req w out w'.

(** ** The text of the response *)

(** [sep.join(l)] *)
Fixpoint join (sep : pystr) (l : list pystr) : pystr :=
  match l with
  | [] => []
  | [x] => x
  | x :: r => x ++ sep ++ join sep r
  end.

(** The full text as the specification words it: the segment texts joined
    by single spaces, then trimmed at both ends. *)
Definition fullText_spec (texts : list pystr) : pystr :=
  strip (join (py " ") texts).

(** ** Concrete runs *)

(** No model yet: the state before the first [load_model]. *)
Definition cold_world : World :=
  {| model := None;
     model_info := {| size := []; device := []; loaded := false |};
     fs := ∅;
     trace := [] |}.

(** The fallback model is loaded. *)
Definition warm_world : World :=
  {| model := Some (cpu_model (py "small"));
     model_info := {| size := py "small"; device := py "cpu"; loaded := true |};
     fs := ∅;
     trace := [] |}.

(** An environment in which every file operation works and the engine
    yields the given segments. *)
Definition engine_env (cf : pystr -> pystr -> pystr -> option pystr)
    (items : list Segment) : Env :=
  {| construct_fault := cf;
     splitext_ext := fun _ => py ".mp3";
     tempfile_fault := None;
     tempfile_name := fun suffix => py "/tmp/tmpk3x9" ++ suffix;
     copyfileobj_fault := None;
     close_fault := None;
     unlink_fault := None;
     engine_transcribe := fun _ _ _ _ _ _ =>
       Return ({| gen_items := items; gen_fault := None |},
               {| language := py "en"; language_probability := (99 # 100)%Q |});
     fs_interference := fun f => f;
     time_time := fun n => inject_Z (Z.of_nat n);
     float_sub := Qminus;
     round2 := fun q => q;
     print_fault := fun _ => None;
     format_2f := fun _ => py "0.00" |}.

(** No accelerated device, the CPU works. *)
Definition gpu_down (model_size dev ct : pystr) : option pystr :=
  if decide (dev = py "cuda") then Some (py "CUDA driver not found") else None.

(** Nothing can be constructed. *)
Definition no_engine (model_size dev ct : pystr) : option pystr :=
  if decide (dev = py "cuda") then Some (py "CUDA driver not found")
  else Some (py "out of memory").

Definition word_hello : Word :=
  {| word := py " hello"; w_start := 0%Q; w_end := (1 # 2)%Q |}.

Definition word_world : Word :=
  {| word := py " world"; w_start := (1 # 2)%Q; w_end := 1%Q |}.

(** A segment with two words. *)
Definition seg_hello : Segment :=
  {| start := 0%Q; end_ := 1%Q; text := py " hello world";
     words := WordsList [word_hello; word_world] |}.

(** A segment whose words list is empty. *)
Definition seg_empty : Segment :=
  {| start := 1%Q; end_ := 2%Q; text := py " uh "; words := WordsList [] |}.

Definition hello_env : Env := engine_env gpu_down [seg_hello; seg_empty].

Definition dead_env : Env := engine_env no_engine [].

(** The disk is full while the upload is copied, and the file cannot be
    removed afterwards (it is still open, on a system that refuses to unlink
    open files). *)
Definition stuck_env : Env :=
  {| construct_fault := gpu_down;
     splitext_ext := fun _ => py ".mp3";
     tempfile_fault := None;
     tempfile_name := fun suffix => py "/tmp/tmpk3x9" ++ suffix;
     copyfileobj_fault := Some (py "No space left on device");
     close_fault := None;
     unlink_fault := Some (py "Permission denied");
     engine_transcribe := fun _ _ _ _ _ _ => Raise (py "unreachable");
     fs_interference := fun f => f;
     time_time := fun n => inject_Z (Z.of_nat n);
     float_sub := Qminus;
     round2 := fun q => q;
     print_fault := fun _ => None;
     format_2f := fun _ => py "0.00" |}.

Definition upload (wt : bool) : Request :=
  {| audio_filename := py "audio.mp3";
     audio_file := [73; 68; 51]%N;
     req_language := py "zh";
     beam_size := 5;
     vad_filter := true;
     word_timestamps := wt |}.

(** The same upload, leaving the language to the engine. *)
Definition upload_auto : Request :=
  {| audio_filename := py "audio.mp3";
     audio_file := [73; 68; 51]%N;
     req_language := py "auto";
     beam_size := 5;
     vad_filter := true;
     word_timestamps := true |}.

(** The response the handler gives in [hello_env] once the model is
    there. *)
Definition hello_response : Response :=
  response_of hello_env (model_info warm_world)
    {| language := py "en"; language_probability := (99 # 100)%Q |}
    [seg_hello; seg_empty]
    (time_time hello_env 3) (time_time hello_env 4).

Definition hello_after (wt : bool) : World :=
  (transcribe_audio hello_env (upload wt) warm_world).2.

(** ** The other routes *)

(** [class ModelRequest(BaseModel)]: the body of [POST /load_model]. *)
Record ModelRequest := {
  mr_model_size : pystr;
  mr_device : pystr
}.

(** The [Field(default=...)] values of [ModelRequest]. *)
Definition ModelRequest_default : ModelRequest :=
  {| mr_model_size := py "large-v3"; mr_device := py "cuda" |}.

(** The dictionary [read_root] returns; ["model_info"] is [None] or the
    [model_info] dictionary. *)
Record RootStatus := {
  status : pystr;
  model_loaded : bool;
  root_model_info : option ModelInfo;
  version : pystr
}.

(** [GET /].  ([GET /model_info], which returns [model_info] as it is, is
    [get_model_info] above.) *)
Definition read_root {E : Type} : M E RootStatus :=
  mi <- get_model_info ;;
  ret {| status := py "running";
         model_loaded := loaded mi;
         root_model_info := if loaded mi then Some mi else None;
         version := py "1.0.0" |}.

(** [POST /load_model] *)
Definition api_load_model {E : Type} (env : Env) (request : ModelRequest)
  : M E LoadResult :=
  result <- load_model env (mr_model_size request) (mr_device request) ;;
  ret result.


(** The state [model_info] is put in by a load that failed. *)
Definition no_model_info : ModelInfo :=
  {| size := []; device := []; loaded := false |}.

(** A world whose [model_info], when it says a model is loaded, describes
    the object bound to [model]. *)
Definition model_described (w : World) : Prop :=
  loaded (model_info w) = true ->
  exists m,
    model w = Some m /\
    size (model_info w) = wm_size m /\
    device (model_info w) = wm_device m.

(** The temporary directory cannot be written to. *)
Definition no_tmp_env : Env :=
  {| construct_fault := gpu_down;
     splitext_ext := fun _ => py ".mp3";
     tempfile_fault := Some (py "No usable temporary directory found");
     tempfile_name := fun suffix => py "/tmp/tmpk3x9" ++ suffix;
     copyfileobj_fault := None;
     close_fault := None;
     unlink_fault := None;
     engine_transcribe := fun _ _ _ _ _ _ => Raise (py "unreachable");
     fs_interference := fun f => f;
     time_time := fun n => inject_Z (Z.of_nat n);
     float_sub := Qminus;
     round2 := fun q => q;
     print_fault := fun _ => None;
     format_2f := fun _ => py "0.00" |}.

(** A request to switch to the ["base"] model on the CPU. *)
Definition switch_to_base : ModelRequest :=
  {| mr_model_size := py "base"; mr_device := py "cpu" |}.

(** The response to a request that had to load the model first, in
    [hello_env]. *)
Definition cold_response : Response :=
  response_of hello_env
    {| size := py "small"; device := py "cpu"; loaded := true |}
    {| language := py "en"; language_probability := (99 # 100)%Q |}
    [seg_hello; seg_empty]
    (time_time hello_env 5) (time_time hello_env 6).

(** A code point that a UTF-8 stream refuses to write: a surrogate. *)
Definition is_surrogate (c : N) : bool := ((55296 <=? c) && (c <=? 57343))%N.

(** [hello_env] with standard output a UTF-8 stream: a line that holds a
    surrogate cannot be printed. *)
Definition utf8_env : Env :=
  {| construct_fault := gpu_down;
     splitext_ext := fun _ => py ".mp3";
     tempfile_fault := None;
     tempfile_name := fun suffix => py "/tmp/tmpk3x9" ++ suffix;
     copyfileobj_fault := None;
     close_fault := None;
     unlink_fault := None;
     engine_transcribe := fun _ _ _ _ _ _ =>
       Return ({| gen_items := [seg_hello; seg_empty]; gen_fault := None |},
               {| language := py "en"; language_probability := (99 # 100)%Q |});
     fs_interference := fun f => f;
     time_time := fun n => inject_Z (Z.of_nat n);
     float_sub := Qminus;
     round2 := fun q => q;
     print_fault := fun text =>
       if existsb is_surrogate text
       then Some (py "'utf-8' codec can't encode character: surrogates not allowed")
       else None;
     format_2f := fun _ => py "0.00" |}.

(** An upload whose file name starts with the code point U+D800. *)
Definition upload_surrogate : Request :=
  {| audio_filename := 55296%N :: py ".mp3";
     audio_file := [73; 68; 51]%N;
     req_language := py "zh";
     beam_size := 5;
     vad_filter := true;
     word_timestamps := true |}.

(** * Properties *)

(** ** Running [load_model] *)

Section LoadModel.

Variable env : Env.
Variable E : Type.

(** The accelerated construction succeeds. *)
Lemma load_model_gpu_ok model_size w :
  fault_of env (gpu_model model_size) = None ->
  load_model env (E:=E) model_size (py "cuda") w =
  (Return {| success := true;
             message := Some (py "Successfully loaded GPU model: " ++ model_size);
             error := None |},
   loaded_world w (gpu_model model_size) [construct_event (gpu_model model_size)]).
Proof.
  unfold fault_of, load_model, WhisperModel; intros H; simpl in H.
  pick_branch. run_monad. rewrite H. reflexivity.
Qed.

(** The accelerated construction fails, the fallback succeeds. *)
Lemma load_model_gpu_fallback model_size w e :
  fault_of env (gpu_model model_size) = Some e ->
  fault_of env (cpu_model (py "small")) = None ->
  load_model env (E:=E) model_size (py "cuda") w =
  (Return {| success := true;
             message := Some (py "GPU load failed, fallback to CPU model (small)");
             error := None |},
   loaded_world w (cpu_model (py "small"))
     [construct_event (gpu_model model_size);
      construct_event (cpu_model (py "small"))]).
Proof.
  unfold fault_of, load_model, WhisperModel; intros H1 H2; simpl in H1, H2.
  pick_branch. run_monad. rewrite H1. pick_branch. run_monad. rewrite H2.
  unfold loaded_world; simpl. rewrite <- app_assoc. reflexivity.
Qed.

(** Both constructions fail. *)
Lemma load_model_gpu_both_fail model_size w e e2 :
  fault_of env (gpu_model model_size) = Some e ->
  fault_of env (cpu_model (py "small")) = Some e2 ->
  load_model env (E:=E) model_size (py "cuda") w =
  (Return {| success := false;
             message := None;
             error := Some (py "Model load failed: " ++ e2) |},
   unloaded_world w
     [construct_event (gpu_model model_size);
      construct_event (cpu_model (py "small"))]).
Proof.
  unfold fault_of, load_model, WhisperModel; intros H1 H2; simpl in H1, H2.
  pick_branch. run_monad. rewrite H1. pick_branch. run_monad. rewrite H2.
  unfold unloaded_world; simpl. rewrite <- app_assoc. reflexivity.
Qed.

(** Any other device: one construction on the CPU. *)
Lemma load_model_cpu_ok model_size dev w :
  dev <> py "cuda" ->
  fault_of env (cpu_model model_size) = None ->
  load_model env (E:=E) model_size dev w =
  (Return {| success := true;
             message := Some (py "Successfully loaded CPU model: " ++ model_size);
             error := None |},
   loaded_world w (cpu_model model_size) [construct_event (cpu_model model_size)]).
Proof.
  unfold fault_of, load_model, WhisperModel; intros Hd H; simpl in H.
  pick_branch. run_monad. rewrite H. reflexivity.
Qed.

Lemma load_model_cpu_fail model_size dev w e :
  dev <> py "cuda" ->
  fault_of env (cpu_model model_size) = Some e ->
  load_model env (E:=E) model_size dev w =
  (Return {| success := false;
             message := None;
             error := Some (py "CPU model load failed: " ++ e) |},
   unloaded_world w [construct_event (cpu_model model_size)]).
Proof.
  unfold fault_of, load_model, WhisperModel; intros Hd H; simpl in H.
  pick_branch. run_monad. rewrite H. pick_branch. run_monad. reflexivity.
Qed.

(** [load_model] always returns, in one of the five ways. *)
Lemma load_model_runs model_size dev w :
  exists r w',
    load_model env (E:=E) model_size dev w = (Return r, w') /\
    load_run env model_size dev w r w'.
Proof.
  destruct (decide (dev = py "cuda")) as [-> | Hd].
  - destruct (fault_of env (gpu_model model_size)) as [e |] eqn:H1.
    + destruct (fault_of env (cpu_model (py "small"))) as [e2 |] eqn:H2.
      * eexists _, _; split;
          [ apply (load_model_gpu_both_fail _ _ _ _ H1 H2)
          | eapply run_gpu_both_fail; eauto ].
      * eexists _, _; split;
          [ apply (load_model_gpu_fallback _ _ _ H1 H2)
          | eapply run_gpu_fallback; eauto ].
    + eexists _, _; split;
        [ apply (load_model_gpu_ok _ _ H1) | apply run_gpu_ok; auto ].
  - destruct (fault_of env (cpu_model model_size)) as [e |] eqn:H1.
    + eexists _, _; split;
        [ apply (load_model_cpu_fail _ _ _ _ Hd H1)
        | eapply run_cpu_fail; eauto ].
    + eexists _, _; split;
        [ apply (load_model_cpu_ok _ _ _ Hd H1) | apply run_cpu_ok; auto ].
Qed.

(** In every run the readiness flag ends up equal to the [success] field,
    the dictionary has exactly one of ["message"] and ["error"], and the
    file system is left alone. *)
Lemma load_run_flag model_size dev w r w' :
  load_run env model_size dev w r w' ->
  loaded (model_info w') = success r /\
  (if success r then is_Some (message r) /\ error r = None
   else message r = None /\ is_Some (error r)) /\
  fs w' = fs w.
Proof.
  intros H; destruct H; simpl; eauto.
Qed.

End LoadModel.

(** ** Claims about [load_model] *)



(** C10: every call of [load_model], whatever its arguments and whatever the
    constructor does (return or raise), returns a result dictionary and
    raises nothing; the dictionary has ["success"] and exactly one of
    ["message"] and ["error"], and afterwards [model_info["loaded"]] is true
    if and only if ["success"] is true. *)
Theorem load_model_returns_and_flag env model_size dev w :
  exists r w',
    load_model env (E:=Exn) model_size dev w = (Return r, w') /\
    (loaded (model_info w') = true <-> success r = true) /\
    (if success r then is_Some (message r) /\ error r = None
     else message r = None /\ is_Some (error r)).
Proof.
  destruct (load_model_runs env Exn model_size dev w) as (r & w' & Hrun & Hcase).
  exists r, w'. split; [exact Hrun | ].
  destruct (load_run_flag env _ _ _ _ _ Hcase) as (Hflag & Hshape & _).
  rewrite Hflag. split; [reflexivity | exact Hshape].
Qed.

(** ** Running the handler *)

Section Handler.

Variable env : Env.

Lemma drain_run items i w :
  drain items i w = (Return tt, add_events w (yields i (length items))).
Proof.
  revert i w; induction items as [| s items IH]; intros i w.
  - unfold add_events, yields; simpl. rewrite app_nil_r. by destruct w.
  - simpl. run_handler. rewrite IH.
    unfold add_events, yields; simpl. by rewrite <- app_assoc.
Qed.

Lemma transcribe_body_runs req path w :
  exists r w',
    transcribe_body env req path w = (r, w') /\ body_run env req path w r w'.
Proof.
  destruct w as [mdl mi f tr].
  unfold transcribe_body. run_handler.
  destruct (copyfileobj_fault env) as [t |] eqn:Hcopy; run_handler.
  { eexists _, _; split; [reflexivity | by apply body_copy_fault]. }
  destruct (close_fault env) as [t |] eqn:Hclose; run_handler.
  { rewrite <- app_assoc. eexists _, _; split; [reflexivity | by apply body_close_fault]. }
  destruct (print_fault env (py "Transcribing file: " ++ audio_filename req))
    as [t |] eqn:Hprint; run_handler.
  { rewrite <- app_assoc. eexists _, _; split; [reflexivity | by apply body_print_fault]. }
  destruct mdl as [m |]; run_handler.
  2: { rewrite <- app_assoc. eexists _, _; split; [reflexivity | ].
       by apply body_no_model. }
  destruct (engine_transcribe env m path (lang_param (req_language req))
              (beam_size req) (vad_filter req) (word_timestamps req))
    as [[g info] | t] eqn:Heng; run_handler.
  2: { rewrite <- !app_assoc. eexists _, _; split; [reflexivity | ].
       by apply (body_engine_fault env req path {| model := Some m; model_info := mi; fs := f; trace := tr |} m t). }
  assert (Hl2 : forall a b : Event,
             length ((tr ++ [a]) ++ [b]) = (length tr + 2)%nat)
    by (intros; rewrite !length_app; simpl; lia).
  assert (Hl3 : forall a b c : Event,
             length (((tr ++ [a]) ++ [b]) ++ [c]) = (length tr + 3)%nat)
    by (intros; rewrite !length_app; simpl; lia).
  rewrite !Hl3, !Hl2. rewrite <- !app_assoc.
  destruct (report_fault env info (length tr)) as [t |] eqn:Hrep0;
    pose proof Hrep0 as Hrep; unfold report_fault in Hrep.
  { destruct (print_fault env
                (py "Transcribe time: "
                 ++ format_2f env
                      (float_sub env (time_time env (length tr + 3))
                         (time_time env (length tr + 2))) ++ py "s"))
      as [t1 |] eqn:Hp1; run_handler.
    - injection Hrep as ->. eexists _, _; split; [reflexivity | ].
      by apply (body_report_fault env req path {| model := Some m; model_info := mi; fs := f; trace := tr |} m g info t).
    - rewrite Hrep. run_handler. eexists _, _; split; [reflexivity | ].
      by apply (body_report_fault env req path {| model := Some m; model_info := mi; fs := f; trace := tr |} m g info t). }
  destruct (print_fault env
              (py "Transcribe time: "
               ++ format_2f env
                    (float_sub env (time_time env (length tr + 3))
                       (time_time env (length tr + 2))) ++ py "s"))
    as [t1 |] eqn:Hp1; [discriminate |].
  run_handler. rewrite Hrep. run_handler.
  rewrite drain_run. unfold add_events. run_handler.
  destruct (gen_fault g) as [t |] eqn:Hgen; run_handler.
  { rewrite <- !app_assoc. eexists _, _; split; [reflexivity | ].
    by apply (body_generator_fault env req path {| model := Some m; model_info := mi; fs := f; trace := tr |} m g info t). }
  rewrite <- !app_assoc.
  eexists _, _; split; [reflexivity | ].
  by apply (body_done env req path {| model := Some m; model_info := mi; fs := f; trace := tr |} m g info).
Qed.

Lemma cleanup_runs path w :
  exists r w', cleanup env path w = (r, w') /\ cleanup_run env path w r w'.
Proof.
  destruct w as [mdl mi f tr].
  unfold cleanup. run_handler.
  destruct (decide (path ∈ f)) as [Hin | Hout].
  - rewrite bool_decide_eq_true_2 by assumption. run_handler.
    rewrite decide_True by assumption.
    destruct (unlink_fault env) as [t |] eqn:Hu; run_handler.
    + eexists _, _; split; [reflexivity | by apply cleanup_fault].
    + rewrite <- app_assoc. eexists _, _; split; [reflexivity | ].
      by apply cleanup_removed.
  - rewrite bool_decide_eq_false_2 by assumption. run_handler.
    eexists _, _; split; [reflexivity | by apply cleanup_absent].
Qed.

End Handler.

(** *** The whole handler *)

Section WholeHandler.

Variable env : Env.

Lemma ensure_model_runs w :
  exists r w', ensure_model env w = (r, w') /\ ensure_run env w r w'.
Proof.
  unfold ensure_model, default_model_size, default_device.
  cbv beta iota delta [bind get_model_info].
  destruct (loaded (model_info w)) eqn:Hl; cbv beta iota delta [negb].
  - eexists _, _; split; [reflexivity | by apply ensure_ready].
  - destruct (load_model_runs env Exn (py "large-v3") (py "cuda") w)
      as (lr & w1 & Hrun & _).
    rewrite Hrun.
    destruct (success lr) eqn:Hs; cbv beta iota delta [negb].
    + eexists _, _; split; [reflexivity | by eapply ensure_loaded].
    + eexists _, _; split; [reflexivity | by eapply ensure_failed].
Qed.

Lemma guarded_body_run req path w rb w3 :
  transcribe_body env req path w = (rb, w3) ->
  guarded_body env req path w = (guard env rb, w3).
Proof.
  unfold guarded_body, try_except. intros ->. destruct rb as [r | t]; [done |].
  unfold guard, bind, uncaught, print_, fault_or, raise, ret.
  by destruct (print_fault env (py "Transcribe error: " ++ t)).
Qed.

Lemma transcribe_staged_runs req w :
  exists r w', transcribe_staged env req w = (r, w') /\ staged_run env req w r w'.
Proof.
  unfold transcribe_staged.
  cbv beta iota delta [bind uncaught NamedTemporaryFile fault_or].
  destruct (tempfile_fault env) as [t |] eqn:Ht.
  - cbv beta iota delta [raise].
    eexists _, _; split; [reflexivity | by apply staged_no_file].
  - cbv beta iota delta [ret bind log get_fs set_fs]. simpl.
    fold (staged_path env req).
    change {| model := model w; model_info := model_info w;
              fs := {[staged_path env req]} ∪ fs w;
              trace := trace w ++ [EvCreateTemp (staged_path env req)] |}
      with (created w (staged_path env req)).
    destruct (transcribe_body_runs env req (staged_path env req)
                (created w (staged_path env req))) as (rb & w3 & Hb & Hbr).
    destruct (cleanup_runs env (staged_path env req) w3) as (rc & w4 & Hc & Hcr).
    unfold try_finally. rewrite (guarded_body_run _ _ _ _ _ Hb), Hc.
    exists (finish (guard env rb) rc), w4. split.
    + by destruct rc.
    + by apply (staged_file env req w rb w3 rc w4).
Qed.

Lemma transcribe_audio_runs req w :
  exists r w', transcribe_audio env req w = (r, w') /\ audio_run env req w r w'.
Proof.
  unfold transcribe_audio, bind.
  destruct (ensure_model_runs w) as (re & w1 & He & Her). rewrite He.
  destruct re as [[] | e].
  - destruct (transcribe_staged_runs req w1) as (r & w' & Hs & Hsr).
    exists r, w'. split; [exact Hs | by eapply audio_staged].
  - eexists _, _; split; [reflexivity | by apply audio_unavailable].
Qed.

(** The handler is a function, so a run it made is the run described. *)
Lemma transcribe_audio_run req w out w' :
  transcribe_audio env req w = (out, w') -> audio_run env req w out w'.
Proof.
  intros H. destruct (transcribe_audio_runs req w) as (r & w1 & Hr & Hrun).
  rewrite H in Hr. by inversion Hr; subst.
Qed.

Lemma transcribe_staged_run req w out w' :
  transcribe_staged env req w = (out, w') -> staged_run env req w out w'.
Proof.
  intros H. destruct (transcribe_staged_runs req w) as (r & w1 & Hr & Hrun).
  rewrite H in Hr. by inversion Hr; subst.
Qed.

End WholeHandler.

(** ** Joining and trimming *)

Section Text.

Lemma segments_loop_from acc segments_list :
  fold_left loop_body segments_list acc =
  (fst acc ++ map segment_dict segments_list,
   snd acc ++ concat (map (fun s => text s ++ py " ") segments_list)).
Proof.
  revert acc; induction segments_list as [| s l IH]; intros [ds t].
  - simpl. by rewrite !app_nil_r.
  - simpl fold_left. rewrite IH. unfold loop_body; simpl fst; simpl snd.
    rewrite !map_cons, concat_cons. by rewrite <- !app_assoc.
Qed.

(** The loop collects one dictionary per segment, in order, and appends
    each text followed by a space. *)
Lemma segments_loop_eq segments_list :
  segments_loop segments_list =
  (map segment_dict segments_list,
   concat (map (fun s => text s ++ py " ") segments_list)).
Proof.
  unfold segments_loop. by rewrite segments_loop_from.
Qed.

Lemma concat_space_join (texts : list pystr) :
  texts <> [] ->
  concat (map (fun t => t ++ py " ") texts) = join (py " ") texts ++ py " ".
Proof.
  induction texts as [| t l IH]; [done | intros _].
  destruct l as [| t' l].
  - simpl. by rewrite app_nil_r.
  - rewrite map_cons, concat_cons, IH by done.
    change (join (py " ") (t :: t' :: l))
      with (t ++ py " " ++ join (py " ") (t' :: l)).
    by rewrite <- !app_assoc.
Qed.

Lemma lstrip_snoc_space (s : pystr) (c : N) :
  isspace c = true ->
  lstrip (s ++ [c]) = match lstrip s with [] => [] | _ => lstrip s ++ [c] end.
Proof.
  intros Hc. induction s as [| a s IH]; simpl.
  - by rewrite Hc.
  - destruct (isspace a); [exact IH | reflexivity].
Qed.

(** A trailing whitespace character does not change what [strip] returns. *)
Lemma strip_snoc_space (s : pystr) (c : N) :
  isspace c = true -> strip (s ++ [c]) = strip s.
Proof.
  intros Hc. unfold strip, rstrip. rewrite (lstrip_snoc_space s c Hc).
  destruct (lstrip s) as [| a r] eqn:Hs; [reflexivity |].
  rewrite rev_app_distr. simpl rev at 2. simpl app at 1.
  simpl lstrip at 1. by rewrite Hc.
Qed.

Lemma strip_concat_space (texts : list pystr) :
  strip (concat (map (fun t => t ++ py " ") texts)) = fullText_spec texts.
Proof.
  unfold fullText_spec. destruct texts as [| t l]; [reflexivity |].
  rewrite concat_space_join by done.
  by apply strip_snoc_space.
Qed.

End Text.

(** ** What a run leaves in the trace and in the file system *)

Section Traces.

Variable env : Env.

Lemma filter_yields_none (p : Event -> bool) i n :
  (forall k, p (EvYield k) = false) -> List.filter p (yields i n) = [].
Proof.
  intros Hp. unfold yields. revert i; induction n as [| n IH]; intros i; simpl.
  - reflexivity.
  - by rewrite Hp, IH.
Qed.

Lemma filter_yields_all i n :
  List.filter is_yield (yields i n) = yields i n.
Proof.
  unfold yields. revert i; induction n as [| n IH]; intros i; simpl.
  - reflexivity.
  - by rewrite IH.
Qed.

Lemma filter_construct_none (p : Event -> bool) evs :
  (forall s d c, p (EvConstruct s d c) = false) ->
  forallb is_construct evs = true ->
  List.filter p evs = [].
Proof.
  intros Hp. induction evs as [| e evs IH]; simpl; [done |].
  destruct e; simpl; try done. rewrite Hp. exact IH.
Qed.

(** [load_model] is a function, so a call that returned went one of the
    five ways. *)
Lemma load_model_run model_size dev w lr w1 :
  load_model env (E:=Exn) model_size dev w = (Return lr, w1) ->
  load_run env model_size dev w lr w1.
Proof.
  intros H. destruct (load_model_runs env Exn model_size dev w) as (r & w' & Hr & Hrun).
  rewrite H in Hr. by inversion Hr; subst.
Qed.

(** A load only calls the constructor. *)
Lemma load_run_trace model_size dev w lr w1 :
  load_run env model_size dev w lr w1 ->
  exists evs, trace w1 = trace w ++ evs /\ forallb is_construct evs = true.
Proof.
  intros H; destruct H; simpl; eexists; split; reflexivity.
Qed.


Lemma ensure_run_facts w re w1 :
  ensure_run env w re w1 ->
  (exists evs, trace w1 = trace w ++ evs /\ forallb is_construct evs = true) /\
  fs w1 = fs w /\
  (re = Return tt -> loaded (model_info w1) = true).
Proof.
  intros H; destruct H as [Hl | lr w2 Hl Hload Hs | lr w2 Hl Hload Hs].
  - split; [| by split]. exists []. by rewrite app_nil_r.
  - apply load_model_run in Hload.
    destruct (load_run_flag env _ _ _ _ _ Hload) as (Hflag & _ & Hfs).
    split; [by eapply load_run_trace |]. split; [exact Hfs |].
    intros _. by rewrite Hflag.
  - apply load_model_run in Hload.
    destruct (load_run_flag env _ _ _ _ _ Hload) as (Hflag & _ & Hfs).
    split; [by eapply load_run_trace |]. by split.
Qed.

(** The body neither creates nor removes a file itself, and leaves
    [model_info] alone. *)
Lemma body_run_facts req path w rb w3 :
  body_run env req path w rb w3 ->
  exists evs,
    trace w3 = trace w ++ evs /\
    List.filter is_create evs = [] /\
    List.filter is_unlink evs = [] /\
    List.filter is_construct evs = [] /\
    model_info w3 = model_info w /\
    (forall m p lang beam vad wt,
        In (EvTranscribe m p lang beam vad wt) evs ->
        lang = lang_param (req_language req)).
Proof.
  intros H; destruct H; unfold transcribe_event; simpl; eexists;
    (split; [reflexivity |]); simpl; repeat split;
    try (rewrite ?List.filter_app, ?filter_yields_none by done; done);
    intros m' p lang beam vad wt Hin;
    repeat (rewrite ?in_app_iff in Hin; simpl in Hin);
    unfold yields in Hin;
    repeat match goal with
           | H : _ \/ _ |- _ => destruct H
           | H : False |- _ => destruct H
           | H : In _ (map _ _) |- _ => apply in_map_iff in H; destruct H as (? & ? & _)
           end; congruence.
Qed.

(** The [finally] block when [os.unlink] works: afterwards the file is
    gone, and it was removed once if and only if it was there. *)
Lemma cleanup_run_facts path w3 rc w4 :
  unlink_fault env = None ->
  cleanup_run env path w3 rc w4 ->
  rc = Return tt /\
  (path ∉ fs w4) /\
  exists evs,
    trace w4 = trace w3 ++ evs /\
    List.filter is_create evs = [] /\
    List.filter is_yield evs = [] /\
    ~ In EvExhausted evs /\
    (forall m p lang beam vad wt, ~ In (EvTranscribe m p lang beam vad wt) evs) /\
    List.filter is_unlink evs =
      (if bool_decide (path ∈ fs w3) then [EvUnlink path] else []) /\
    (evs = [EvExists path false] \/ evs = [EvExists path true; EvUnlink path]).
Proof.
  intros Hu H; destruct H as [Hout | Hin Hu' | Hin t Ht]; simpl.
  - split; [done |]. split; [done |]. eexists; split; [reflexivity |].
    rewrite bool_decide_eq_false_2 by done. simpl.
    repeat split; try done; [ | | by left]; intros; intros [|[]]; done.
  - split; [done |].
    split; [intros [_ Hn]%elem_of_difference; apply Hn; by apply elem_of_singleton |].
    eexists; split; [reflexivity |].
    rewrite bool_decide_eq_true_2 by done. simpl.
    repeat split; try done; [ | | by right]; intros; intros [|[|[]]]; done.
  - congruence.
Qed.

End Traces.

(** ** A request that succeeds *)

Section Success.

Variable env : Env.

(** What is known when the handler returned a response: the model was
    there, the file was created, staged and closed, the engine returned a
    generator that was pulled to its end, and only then did the [finally]
    block look for the file. *)
Lemma transcribe_audio_success req w r w' :
  transcribe_audio env req w = (Return r, w') ->
  exists w1 m g info t0 t1 evs_c,
    ensure_run env w (Return tt) w1 /\
    tempfile_fault env = None /\
    model w1 = Some m /\
    engine_call env req m (staged_path env req) = Return (g, info) /\
    gen_fault g = None /\
    r = response_of env (model_info w1) info (gen_items g) t0 t1 /\
    trace w' =
      trace w1 ++
      [EvCreateTemp (staged_path env req); EvCopy (staged_path env req);
       EvClose (staged_path env req);
       transcribe_event req m (staged_path env req)] ++
      yields 0 (length (gen_items g)) ++ [EvExhausted] ++ evs_c /\
    (evs_c = [EvExists (staged_path env req) false] \/
     evs_c = [EvExists (staged_path env req) true;
              EvUnlink (staged_path env req)]).
Proof.
  intros H. apply transcribe_audio_run in H.
  remember (Return r : Outcome Exn Response) as out eqn:Hout.
  destruct H as [e w1 He | w1 out w' He Hs]; [discriminate |].
  destruct Hs as [t Ht | rb w3 rc w4 Ht Hbeq Hb Hceq Hc]; [discriminate |].
  destruct rc as [[] | e]; simpl in Hout; [| discriminate].
  assert (exists evs_c,
             trace w4 = trace w3 ++ evs_c /\
             (evs_c = [EvExists (staged_path env req) false] \/
              evs_c = [EvExists (staged_path env req) true;
                       EvUnlink (staged_path env req)])) as (evs_c & Htr & Hevs).
  { inversion Hc; subst; eexists; (split; [reflexivity |]); [by left | by right]. }
  destruct Hb as [| | | | | | | m g info Hcopy Hclose Hprint Hm Heng Hrep Hgen];
    unfold guard in Hout;
    try (destruct (print_fault env _); discriminate).
  injection Hout as <-. simpl in Hm.
  exists w1, m, g, info. do 2 eexists. exists evs_c.
  repeat split; try done.
  rewrite Htr. simpl. repeat (rewrite <- app_assoc; simpl). reflexivity.
Qed.

End Success.

(** ** Segment records *)

Section Segments.

(** The ["words"] key of the record built for a segment. *)
Lemma segment_dict_words (s : Segment) :
  sd_words (segment_dict s) =
  match words s with
  | WordsList (x :: ws) => Some (map word_dict (x :: ws))
  | _ => None
  end.
Proof.
  unfold segment_dict, hasattr_words, words_truthy, words_iter.
  destruct (words s) as [| | [| x ws]]; reflexivity.
Qed.

Lemma segment_dict_fields (s : Segment) :
  sd_start (segment_dict s) = start s /\
  sd_end (segment_dict s) = end_ s /\
  sd_text (segment_dict s) = text s.
Proof.
  unfold segment_dict. by destruct (hasattr_words s && words_truthy s).
Qed.

Lemma Forall2_map_self {A B : Type} (P : A -> B -> Prop) (f : A -> B) (l : list A) :
  (forall x, P x (f x)) -> Forall2 P l (map f l).
Proof.
  intros HP. induction l as [| x l IH]; simpl; constructor; auto.
Qed.

Lemma response_segments env mi info segments_list t0 t1 :
  r_segments (response_of env mi info segments_list t0 t1) =
  map segment_dict segments_list.
Proof.
  unfold response_of; simpl. by rewrite segments_loop_eq.
Qed.

Lemma response_text env mi info segments_list t0 t1 :
  r_text (response_of env mi info segments_list t0 t1) =
  fullText_spec (map text segments_list).
Proof.
  unfold response_of; simpl. rewrite segments_loop_eq; simpl.
  rewrite <- strip_concat_space. by rewrite map_map.
Qed.

End Segments.

(** ** Claims about [transcribe_audio] *)

(** C5: the ["text"] of a response is the texts of the segments the engine
    yielded, joined by single spaces, with white space trimmed at both ends
    of the result; with no segment it is the empty string. *)
Theorem full_text_trimmed_join env req w r w' :
  transcribe_audio env req w = (Return r, w') ->
  exists m g info,
    engine_call env req m (staged_path env req) = Return (g, info) /\
    r_text r = fullText_spec (map text (gen_items g)) /\
    (gen_items g = [] -> r_text r = []).
Proof.
  intros H.
  destruct (transcribe_audio_success env req w r w' H)
    as (w1 & m & g & info & t0 & t1 & evs_c & _ & _ & _ & Heng & _ & -> & _).
  exists m, g, info. split; [exact Heng |].
  rewrite response_text. split; [reflexivity |].
  by intros ->.
Qed.

(** C1, as the code has it: with [word_timestamps] false, a segment record
    of the response has a ["words"] key exactly when the segment the engine
    yielded carries a non-empty [words] list; so no record has the key when
    no yielded segment carries such a list. *)
Theorem words_key_follows_engine env req w r w' :
  word_timestamps req = false ->
  transcribe_audio env req w = (Return r, w') ->
  exists m g info,
    engine_call env req m (staged_path env req) = Return (g, info) /\
    Forall2 (fun s d =>
               is_Some (sd_words d) <-> exists x ws, words s = WordsList (x :: ws))
            (gen_items g) (r_segments r) /\
    (Forall (fun s => forall x ws, words s <> WordsList (x :: ws)) (gen_items g) ->
     Forall (fun d => sd_words d = None) (r_segments r)).
Proof.
  intros _ H.
  destruct (transcribe_audio_success env req w r w' H)
    as (w1 & m & g & info & t0 & t1 & evs_c & _ & _ & _ & Heng & _ & -> & _).
  exists m, g, info. split; [exact Heng |].
  rewrite response_segments. split.
  - apply Forall2_map_self. intros s. rewrite segment_dict_words.
    destruct (words s) as [| | [| x ws]]; split; intros Hs.
    all: try (destruct Hs as [? Hs]; discriminate Hs).
    all: try (destruct Hs as (? & ? & Hs); discriminate Hs).
    + by exists x, ws.
    + by eexists.
  - intros Hall. apply Forall_map.
    eapply Forall_impl; [exact Hall |]. intros s Hs. cbv beta in Hs.
    rewrite segment_dict_words.
    destruct (words s) as [| | [| x ws]] eqn:Hw; try reflexivity.
    by destruct (Hs x ws).
Qed.

(** C9, as the code has it: with [word_timestamps] true, the record of a
    segment for which the engine supplied a non-empty [words] list carries
    that list, word by word and in order; the record of a segment whose
    [words] list is empty has no ["words"] key. *)
Theorem words_list_attached env req w r w' :
  word_timestamps req = true ->
  transcribe_audio env req w = (Return r, w') ->
  exists m g info,
    engine_call env req m (staged_path env req) = Return (g, info) /\
    Forall2 (fun s d =>
               (forall x ws, words s = WordsList (x :: ws) ->
                             sd_words d = Some (map word_dict (x :: ws))) /\
               (words s = WordsList [] -> sd_words d = None))
            (gen_items g) (r_segments r).
Proof.
  intros _ H.
  destruct (transcribe_audio_success env req w r w' H)
    as (w1 & m & g & info & t0 & t1 & evs_c & _ & _ & _ & Heng & _ & -> & _).
  exists m, g, info. split; [exact Heng |].
  rewrite response_segments.
  apply Forall2_map_self. intros s. rewrite segment_dict_words.
  split.
  - by intros x ws ->.
  - by intros ->.
Qed.

(** C8: in a request that succeeds, every item of the generator is pulled
    and the generator is exhausted before the staged file is removed: the
    calls recorded up to the exhaustion hold all the pulls and no removal,
    and what follows is only the [finally] block. *)
Theorem materialized_before_removal env req w r w' :
  transcribe_audio env req w = (Return r, w') ->
  exists m g info pre post,
    engine_call env req m (staged_path env req) = Return (g, info) /\
    gen_fault g = None /\
    length (r_segments r) = length (gen_items g) /\
    trace w' = trace w ++ pre ++ [EvExhausted] ++ post /\
    List.filter is_yield pre = yields 0 (length (gen_items g)) /\
    List.filter is_unlink pre = [] /\
    List.filter is_yield post = [] /\
    (post = [EvExists (staged_path env req) false] \/
     post = [EvExists (staged_path env req) true; EvUnlink (staged_path env req)]).
Proof.
  intros H.
  destruct (transcribe_audio_success env req w r w' H)
    as (w1 & m & g & info & t0 & t1 & evs_c & He & _ & _ & Heng & Hgen & -> & Htr & Hc).
  destruct (ensure_run_facts env w _ w1 He) as ((evs_l & Hl & Hcons) & _ & _).
  exists m, g, info.
  exists (evs_l ++
          [EvCreateTemp (staged_path env req); EvCopy (staged_path env req);
           EvClose (staged_path env req);
           transcribe_event req m (staged_path env req)] ++
          yields 0 (length (gen_items g))), evs_c.
  split; [exact Heng |]. split; [exact Hgen |].
  split; [by rewrite response_segments, length_map |].
  split; [rewrite Htr, Hl; by rewrite <- !app_assoc |].
  rewrite !List.filter_app, !(filter_construct_none _ evs_l) by done.
  rewrite filter_yields_all, filter_yields_none by done.
  unfold transcribe_event; simpl.
  repeat split; try done.
  by destruct Hc as [-> | ->].
Qed.

Section Language.

Variable env : Env.

(** Once copying, closing and the line printed before it have returned and
    [model] is bound, the [try] block calls the engine once, with
    [lang_param] of the request's language. *)
Lemma body_run_engine_call req path w rb w3 m :
  body_run env req path w rb w3 ->
  model w = Some m ->
  copyfileobj_fault env = None ->
  close_fault env = None ->
  print_fault env (file_line req) = None ->
  exists evs,
    trace w3 = trace w ++ evs /\
    List.filter is_transcribe evs = [transcribe_event req m path].
Proof.
  intros H Hm Hc Hcl Hp.
  destruct H as
      [t Hc' | t Hc' Hcl' | t Hc' Hcl' Hp' | Hc' Hcl' Hp' Hno | m' t Hc' Hcl' Hp' Hm' He
       | m' g info t Hc' Hcl' Hp' Hm' He Hr
       | m' g info t Hc' Hcl' Hp' Hm' He Hr Hg | m' g info Hc' Hcl' Hp' Hm' He Hr Hg];
    try congruence;
    assert (m' = m) as -> by congruence;
    eexists; (split; [reflexivity |]);
    unfold transcribe_event; simpl;
    rewrite ?List.filter_app, ?filter_yields_none by done; reflexivity.
Qed.

(** The [finally] block does not call the engine. *)
Lemma cleanup_run_no_engine path w3 rc w4 :
  cleanup_run env path w3 rc w4 ->
  exists evs,
    trace w4 = trace w3 ++ evs /\ List.filter is_transcribe evs = [].
Proof.
  intros H; destruct H; simpl; eexists; split; reflexivity.
Qed.

End Language.

(** C7: a request that gets past the model check with [model] bound, whose
    temporary file is created and whose upload is copied and closed (and
    whose file-name line is printed), calls the engine's [transcribe]
    exactly once, on the staged file, and the language it passes is
    [lang_param] of the request's language: [None] exactly when that
    language is the string ["auto"], and the request's language itself
    otherwise. *)
Theorem language_passed_to_engine env req w w1 m :
  ensure_model env w = (Return tt, w1) ->
  model w1 = Some m ->
  tempfile_fault env = None ->
  copyfileobj_fault env = None ->
  close_fault env = None ->
  print_fault env (py "Transcribing file: " ++ audio_filename req) = None ->
  exists evs,
    trace (transcribe_audio env req w).2 = trace w1 ++ evs /\
    List.filter is_transcribe evs =
      [EvTranscribe m (staged_path env req) (lang_param (req_language req))
         (beam_size req) (vad_filter req) (word_timestamps req)] /\
    (lang_param (req_language req) = None <-> req_language req = py "auto") /\
    (req_language req <> py "auto" ->
     lang_param (req_language req) = Some (req_language req)).
Proof.
  intros He Hm Ht Hc Hcl Hp.
  destruct (transcribe_audio env req w) as [out w'] eqn:H. simpl.
  unfold transcribe_audio, bind in H. rewrite He in H.
  apply transcribe_staged_run in H.
  destruct H as [t Ht' | rb w3 rc w4 _ Hbeq Hb Hceq Hcr]; [congruence |].
  destruct (body_run_engine_call env _ _ _ _ _ m Hb Hm Hc Hcl Hp)
    as (evs_b & Hb_tr & Hb_call).
  destruct (cleanup_run_no_engine env _ _ _ _ Hcr) as (evs_c & Hc_tr & Hc_call).
  exists ([EvCreateTemp (staged_path env req)] ++ evs_b ++ evs_c).
  split; [| split; [| split]].
  - rewrite Hc_tr, Hb_tr. simpl. by rewrite <- !app_assoc.
  - rewrite !List.filter_app, Hb_call, Hc_call. reflexivity.
  - unfold lang_param.
    destruct (decide (req_language req = py "auto")) as [Heq | Hne];
      [by split | split; [discriminate | by intros ?]].
  - intros Hne. unfold lang_param. by rewrite decide_False.
Qed.


(** C4, as the code has it: a request that gets past the model check and
    whose temporary file is created creates exactly that one file; whatever
    then happens in the [try] block (staging, closing, the engine call,
    pulling the segments), the [finally] block removes the file once if it
    is still there and not at all otherwise, so that it is gone afterwards,
    and the handler's outcome is the one the [try]/[except] part produced,
    provided [os.unlink] itself does not raise. *)
Theorem temp_file_created_once_removed_once env req w w1 out w' :
  ensure_model env w = (Return tt, w1) ->
  tempfile_fault env = None ->
  unlink_fault env = None ->
  transcribe_audio env req w = (out, w') ->
  exists evs,
    trace w' = trace w1 ++ evs /\
    List.filter is_create evs = [EvCreateTemp (staged_path env req)] /\
    List.filter is_unlink evs =
      (if bool_decide
            (staged_path env req ∈
               fs (guarded_body env req (staged_path env req)
                     (created w1 (staged_path env req))).2)
       then [EvUnlink (staged_path env req)] else []) /\
    (staged_path env req ∉ fs w') /\
    out = (guarded_body env req (staged_path env req)
             (created w1 (staged_path env req))).1.
Proof.
  intros He Ht Hu H.
  unfold transcribe_audio, bind in H. rewrite He in H.
  apply transcribe_staged_run in H.
  destruct H as [t Ht' | rb w3 rc w4 _ Hbeq Hb Hceq Hc]; [congruence |].
  rewrite (guarded_body_run env _ _ _ _ _ Hbeq). simpl.
  destruct (body_run_facts env _ _ _ _ _ Hb)
    as (evs_b & Hb_tr & Hb_create & Hb_unlink & _).
  destruct (cleanup_run_facts env _ _ _ _ Hu Hc)
    as (-> & Hgone & evs_c & Hc_tr & Hc_create & _ & _ & _ & Hc_unlink & _).
  exists ([EvCreateTemp (staged_path env req)] ++ evs_b ++ evs_c).
  split; [| split; [| split; [| split]]].
  - rewrite Hc_tr, Hb_tr. simpl. by rewrite <- !app_assoc.
  - rewrite !List.filter_app, Hb_create, Hc_create. reflexivity.
  - rewrite !List.filter_app, Hb_unlink, Hc_unlink. reflexivity.
  - exact Hgone.
  - reflexivity.
Qed.

(** What the previous statement leaves out: when the file is still there
    and [os.unlink] raises, that exception is what leaves the handler, and
    the file stays. *)
Lemma cleanup_failure_replaces_outcome env req w w1 out w' t :
  ensure_model env w = (Return tt, w1) ->
  tempfile_fault env = None ->
  unlink_fault env = Some t ->
  transcribe_audio env req w = (out, w') ->
  staged_path env req ∈
    fs (guarded_body env req (staged_path env req)
          (created w1 (staged_path env req))).2 ->
  out = Raise (Exception t) /\ staged_path env req ∈ fs w'.
Proof.
  intros He Ht Hu H.
  unfold transcribe_audio, bind in H. rewrite He in H.
  apply transcribe_staged_run in H.
  destruct H as [t' Ht' | rb w3 rc w4 _ Hbeq Hb Hceq Hc]; [congruence |].
  rewrite (guarded_body_run env _ _ _ _ _ Hbeq). simpl. intros Hin.
  destruct Hc as [Hout | Hin' Hu' | Hin' t' Hu']; [done | congruence |].
  simpl. split; [congruence | exact Hin].
Qed.

(** ** Concrete runs *)



(** The text of the response to [upload true] in [hello_env]. *)
Lemma full_text_trimmed_join_witness :
  transcribe_audio hello_env (upload true) warm_world =
    (Return hello_response, hello_after true) /\
  exists m g info,
    engine_call hello_env (upload true) m (staged_path hello_env (upload true)) =
      Return (g, info) /\
    r_text hello_response = fullText_spec (map text (gen_items g)) /\
    (gen_items g = [] -> r_text hello_response = []).
Proof.
  split; [vm_compute; reflexivity |].
  apply (full_text_trimmed_join hello_env (upload true) warm_world
           hello_response (hello_after true)).
  vm_compute; reflexivity.
Defined.

(** C1 fails as stated: with [word_timestamps] false and an engine that
    yields a segment carrying two words, the response's first segment
    record has a ["words"] key holding both. *)
Lemma words_key_despite_flag_off :
  word_timestamps (upload false) = false /\
  words seg_hello = WordsList [word_hello; word_world] /\
  exists r w' d rest,
    transcribe_audio hello_env (upload false) warm_world = (Return r, w') /\
    r_segments r = d :: rest /\
    sd_words d = Some [word_dict word_hello; word_dict word_world] /\
    sd_words d <> None.
Proof.
  split; [reflexivity |]. split; [reflexivity |].
  eexists _, _, _, _. split; [vm_compute; reflexivity |].
  split; [reflexivity |]. split; [reflexivity | discriminate].
Qed.

(** The records of the response to [upload false] in [hello_env]. *)
Lemma words_key_follows_engine_witness :
  word_timestamps (upload false) = false /\
  transcribe_audio hello_env (upload false) warm_world =
    (Return hello_response, hello_after false) /\
  exists m g info,
    engine_call hello_env (upload false) m (staged_path hello_env (upload false)) =
      Return (g, info) /\
    Forall2 (fun s d =>
               is_Some (sd_words d) <-> exists x ws, words s = WordsList (x :: ws))
            (gen_items g) (r_segments hello_response) /\
    (Forall (fun s => forall x ws, words s <> WordsList (x :: ws)) (gen_items g) ->
     Forall (fun d => sd_words d = None) (r_segments hello_response)).
Proof.
  split; [reflexivity |]. split; [vm_compute; reflexivity |].
  apply (words_key_follows_engine hello_env (upload false) warm_world
           hello_response (hello_after false)).
  - reflexivity.
  - vm_compute; reflexivity.
Defined.

(** C9 fails as stated: with [word_timestamps] true and an engine whose
    second segment has an empty [words] list, the second segment record of
    the response has no ["words"] key, rather than an empty list. *)
Lemma empty_words_list_not_emitted :
  word_timestamps (upload true) = true /\
  words seg_empty = WordsList [] /\
  exists r w' d1 d2,
    transcribe_audio hello_env (upload true) warm_world = (Return r, w') /\
    r_segments r = [d1; d2] /\
    sd_text d2 = text seg_empty /\
    sd_words d2 = None /\
    sd_words d2 <> Some [].
Proof.
  split; [reflexivity |]. split; [reflexivity |].
  eexists _, _, _, _. split; [vm_compute; reflexivity |].
  split; [reflexivity |]. split; [reflexivity |].
  split; [reflexivity | discriminate].
Qed.

(** The records of the response to [upload true] in [hello_env]. *)
Lemma words_list_attached_witness :
  word_timestamps (upload true) = true /\
  transcribe_audio hello_env (upload true) warm_world =
    (Return hello_response, hello_after true) /\
  exists m g info,
    engine_call hello_env (upload true) m (staged_path hello_env (upload true)) =
      Return (g, info) /\
    Forall2 (fun s d =>
               (forall x ws, words s = WordsList (x :: ws) ->
                             sd_words d = Some (map word_dict (x :: ws))) /\
               (words s = WordsList [] -> sd_words d = None))
            (gen_items g) (r_segments hello_response).
Proof.
  split; [reflexivity |]. split; [vm_compute; reflexivity |].
  apply (words_list_attached hello_env (upload true) warm_world
           hello_response (hello_after true)).
  - reflexivity.
  - vm_compute; reflexivity.
Defined.

(** The order of the calls of [upload true] in [hello_env]. *)
Lemma materialized_before_removal_witness :
  transcribe_audio hello_env (upload true) warm_world =
    (Return hello_response, hello_after true) /\
  exists m g info pre post,
    engine_call hello_env (upload true) m (staged_path hello_env (upload true)) =
      Return (g, info) /\
    gen_fault g = None /\
    length (r_segments hello_response) = length (gen_items g) /\
    trace (hello_after true) = trace warm_world ++ pre ++ [EvExhausted] ++ post /\
    List.filter is_yield pre = yields 0 (length (gen_items g)) /\
    List.filter is_unlink pre = [] /\
    List.filter is_yield post = [] /\
    (post = [EvExists (staged_path hello_env (upload true)) false] \/
     post = [EvExists (staged_path hello_env (upload true)) true;
             EvUnlink (staged_path hello_env (upload true))]).
Proof.
  split; [vm_compute; reflexivity |].
  apply (materialized_before_removal hello_env (upload true) warm_world
           hello_response (hello_after true)).
  vm_compute; reflexivity.
Defined.

(** A request that leaves the language to the engine, with the fallback
    model loaded: [transcribe] is called once, with [None]. *)
Lemma language_passed_to_engine_witness :
  req_language upload_auto = py "auto" /\
  exists evs,
    trace (transcribe_audio hello_env upload_auto warm_world).2 =
      trace warm_world ++ evs /\
    List.filter is_transcribe evs =
      [EvTranscribe (cpu_model (py "small")) (staged_path hello_env upload_auto)
         None 5 true true] /\
    (lang_param (req_language upload_auto) = None <->
     req_language upload_auto = py "auto") /\
    (req_language upload_auto <> py "auto" ->
     lang_param (req_language upload_auto) = Some (req_language upload_auto)).
Proof.
  split; [reflexivity |].
  apply (language_passed_to_engine hello_env upload_auto warm_world warm_world
           (cpu_model (py "small"))); reflexivity.
Defined.


(** The temporary file of [upload true] in [hello_env]. *)
Lemma temp_file_created_once_removed_once_witness :
  ensure_model hello_env warm_world = (Return tt, warm_world) /\
  tempfile_fault hello_env = None /\
  unlink_fault hello_env = None /\
  exists evs,
    trace (hello_after true) = trace warm_world ++ evs /\
    List.filter is_create evs = [EvCreateTemp (staged_path hello_env (upload true))] /\
    List.filter is_unlink evs =
      (if bool_decide
            (staged_path hello_env (upload true) ∈
               fs (guarded_body hello_env (upload true)
                     (staged_path hello_env (upload true))
                     (created warm_world (staged_path hello_env (upload true)))).2)
       then [EvUnlink (staged_path hello_env (upload true))] else []) /\
    (staged_path hello_env (upload true) ∉ fs (hello_after true)) /\
    Return hello_response =
      (guarded_body hello_env (upload true) (staged_path hello_env (upload true))
         (created warm_world (staged_path hello_env (upload true)))).1.
Proof.
  split; [reflexivity |]. split; [reflexivity |]. split; [reflexivity |].
  apply (temp_file_created_once_removed_once hello_env (upload true)
           warm_world warm_world (Return hello_response) (hello_after true)).
  - reflexivity.
  - reflexivity.
  - reflexivity.
  - vm_compute; reflexivity.
Defined.

(** C4 fails as stated: when copying the upload raises and [os.unlink] then
    raises too, the exception of [os.unlink] leaves the handler in place of
    the [HTTPException] the [except] clause had raised, and the file is
    still there: it was never removed. *)
Lemma cleanup_failure_masks_error :
  ensure_model stuck_env warm_world = (Return tt, warm_world) /\
  (guarded_body stuck_env (upload true) (staged_path stuck_env (upload true))
     (created warm_world (staged_path stuck_env (upload true)))).1 =
    Raise (HTTPException 500 (py "No space left on device")) /\
  (transcribe_audio stuck_env (upload true) warm_world).1 =
    Raise (Exception (py "Permission denied")) /\
  List.filter is_create (trace (transcribe_audio stuck_env (upload true) warm_world).2) =
    [EvCreateTemp (staged_path stuck_env (upload true))] /\
  List.filter is_unlink (trace (transcribe_audio stuck_env (upload true) warm_world).2) = [] /\
  staged_path stuck_env (upload true) ∈
    fs (transcribe_audio stuck_env (upload true) warm_world).2.
Proof.
  do 5 (split; [vm_compute; reflexivity |]).
  eapply (bool_decide_unpack _). vm_compute. exact I.
Qed.

(** * Further properties *)

(** ** The model manager, beyond the claims *)

Section LoadModelMore.

Variable env : Env.

(** What a run of [load_model] does to the globals and to the trace. *)
Lemma load_run_state model_size dev w r w' :
  load_run env model_size dev w r w' ->
  (success r = true ->
   exists m,
     model w' = Some m /\
     model_info w' = {| size := wm_size m; device := wm_device m; loaded := true |} /\
     (m = gpu_model model_size \/ m = cpu_model model_size \/ m = cpu_model (py "small"))) /\
  (success r = false ->
   model w' = model w /\ model_info w' = no_model_info /\ message r = None).
Proof.
  intros H; destruct H; simpl; split; intros Hs; try discriminate.
  - eexists; repeat split; auto.
  - eexists; repeat split; auto.
  - done.
  - eexists; repeat split; auto.
  - done.
Qed.

Lemma api_load_model_eq (E : Type) request w :
  api_load_model (E:=E) env request w =
  load_model env (mr_model_size request) (mr_device request) w.
Proof.
  unfold api_load_model, bind, ret.
  by destruct (load_model env (mr_model_size request) (mr_device request) w) as [[r | e] w'].
Qed.

End LoadModelMore.

(** X1: [POST /load_model] with any device other than the string ["cuda"],
    once the line [load_model] prints first has been printed, makes one
    construction, on ["cpu"] with ["int8"], and never falls back: if the
    construction returns, [model_info] is [{size, "cpu", True}] whatever the
    device string was; if it raises, [model_info] is blanked and the error
    text is ["CPU model load failed: "] followed by the exception's text. *)
Theorem api_load_model_cpu_single_attempt env request w :
  mr_device request <> py "cuda" ->
  print_fault env (py "Loading CPU model: " ++ mr_model_size request ++ py "...") = None ->
  exists r w',
    api_load_model (E:=Exn) env request w = (Return r, w') /\
    trace w' = trace w ++ [EvConstruct (mr_model_size request) (py "cpu") (py "int8")] /\
    match construct_fault env (mr_model_size request) (py "cpu") (py "int8") with
    | None =>
        r = {| success := true;
               message := Some (py "Successfully loaded CPU model: " ++ mr_model_size request);
               error := None |} /\
        model_info w' = {| size := mr_model_size request; device := py "cpu"; loaded := true |}
    | Some e =>
        r = {| success := false;
               message := None;
               error := Some (py "CPU model load failed: " ++ e) |} /\
        model_info w' = no_model_info
    end.
Proof.
  intros Hd _. rewrite api_load_model_eq.
  destruct (construct_fault env (mr_model_size request) (py "cpu") (py "int8"))
    as [e |] eqn:Hf.
  - eexists _, _. split; [by apply load_model_cpu_fail |]. by split.
  - eexists _, _. split; [by apply load_model_cpu_ok |]. by split.
Qed.

(** X2: when none of its [print] calls raises, a call of [load_model]
    makes one or two constructor calls and nothing else: the first one as
    requested, a second one exactly when the device was ["cuda"] and the
    accelerated construction raised; no file is touched. *)
Theorem load_model_constructor_calls env model_size dev w :
  (forall text, print_fault env text = None) ->
  exists r w' evs,
    load_model env (E:=Exn) model_size dev w = (Return r, w') /\
    trace w' = trace w ++ evs /\
    fs w' = fs w /\
    (evs = [EvConstruct model_size (py "cuda") (py "float16")] /\
       dev = py "cuda" /\
       construct_fault env model_size (py "cuda") (py "float16") = None
     \/
     evs = [EvConstruct model_size (py "cuda") (py "float16");
            EvConstruct (py "small") (py "cpu") (py "int8")] /\
       dev = py "cuda" /\
       construct_fault env model_size (py "cuda") (py "float16") <> None
     \/
     evs = [EvConstruct model_size (py "cpu") (py "int8")] /\
       dev <> py "cuda").
Proof.
  intros _.
  destruct (load_model_runs env Exn model_size dev w) as (r & w' & Hrun & Hcase).
  exists r, w'.
  destruct Hcase; eexists; (split; [exact Hrun |]); (split; [reflexivity |]);
    (split; [reflexivity |]); unfold fault_of in *; simpl in *.
  - left. by repeat split.
  - right; left. repeat split; [done | congruence].
  - right; left. repeat split; [done | congruence].
  - right; right. by split.
  - right; right. by split.
Qed.

(** X3: a load that fails leaves the global [model] as it was, so an engine
    loaded earlier stays bound, while [model_info] is set to
    [{"size": "", "device": "", "loaded": False}]; the result then has no
    ["message"]. *)
Theorem failed_load_keeps_model env model_size dev w r w' :
  load_model env (E:=Exn) model_size dev w = (Return r, w') ->
  success r = false ->
  model w' = model w /\
  model_info w' = no_model_info /\
  message r = None /\
  is_Some (error r).
Proof.
  intros Hrun Hs. apply load_model_run in Hrun.
  destruct (load_run_state env _ _ _ _ _ Hrun) as (_ & Hfail).
  destruct (Hfail Hs) as (Hm & Hmi & Hmsg).
  destruct (load_run_flag env _ _ _ _ _ Hrun) as (_ & Hshape & _).
  rewrite Hs in Hshape. by destruct Hshape.
Qed.


(** ** The handler, beyond the claims *)

Section HandlerMore.

Variable env : Env.

(** The [try] block leaves the two globals alone and changes the files
    only through what the environment does while the engine runs. *)
Lemma body_run_globals req path w rb w3 :
  body_run env req path w rb w3 ->
  model w3 = model w /\
  model_info w3 = model_info w /\
  (fs w3 = fs w \/ fs w3 = fs_interference env (fs w)).
Proof.
  intros H; destruct H; simpl; repeat split; auto.
Qed.

Lemma cleanup_run_globals path w3 rc w4 :
  cleanup_run env path w3 rc w4 ->
  model w4 = model w3 /\ model_info w4 = model_info w3.
Proof.
  intros H; destruct H; simpl; by split.
Qed.

(** The files left by the [finally] block when [os.unlink] works. *)
Lemma cleanup_run_fs path w3 rc w4 :
  unlink_fault env = None ->
  cleanup_run env path w3 rc w4 ->
  fs w4 = fs w3 ∖ {[path]}.
Proof.
  intros Hu H; destruct H as [Hout | Hin Hu' | Hin t Ht]; simpl.
  - apply set_eq. intros p. rewrite elem_of_difference, elem_of_singleton.
    split; [| tauto]. intros Hp. split; [done | congruence].
  - reflexivity.
  - congruence.
Qed.

Lemma ensure_run_globals w re w1 :
  ensure_run env w re w1 ->
  loaded (model_info w) = true ->
  w1 = w /\ re = Return tt.
Proof.
  intros H Hl; destruct H; [done | congruence | congruence].
Qed.

Lemma ensure_model_run w re w1 :
  ensure_model env w = (re, w1) -> ensure_run env w re w1.
Proof.
  intros H. destruct (ensure_model_runs env w) as (r & w' & Hr & Hrun).
  rewrite H in Hr. by inversion Hr; subst.
Qed.

(** Once the model is there, the request runs the staged part. *)
Lemma transcribe_audio_staged req w w1 :
  ensure_model env w = (Return tt, w1) ->
  transcribe_audio env req w = transcribe_staged env req w1.
Proof.
  intros He. unfold transcribe_audio, bind. by rewrite He.
Qed.

(** The outcome of the [try]/[except] part when no [print] raises, read
    off the environment. *)
Lemma body_run_outcome req path w rb w3 m :
  (forall text, print_fault env text = None) ->
  body_run env req path w rb w3 ->
  model w = Some m ->
  guard env rb =
  match copyfileobj_fault env with
  | Some t => Raise (HTTPException 500 t)
  | None =>
      match close_fault env with
      | Some t => Raise (HTTPException 500 t)
      | None =>
          match engine_call env req m path with
          | Raise t => Raise (HTTPException 500 t)
          | Return (g, info) =>
              match gen_fault g with
              | Some t => Raise (HTTPException 500 t)
              | None =>
                  Return (response_of env (model_info w) info (gen_items g)
                            (time_time env (length (trace w) + 2))
                            (time_time env (length (trace w) + 3)))
              end
          end
      end
  end.
Proof.
  intros Hp H Hm.
  assert (Hrep : forall info n, report_fault env info n = None).
  { intros info n. unfold report_fault. by rewrite !Hp. }
  destruct H as
      [t Hc | t Hc Hcl | t Hc Hcl Hpr | Hc Hcl Hpr Hno | m' t Hc Hcl Hpr Hm' He
       | m' g info t Hc Hcl Hpr Hm' He Hr
       | m' g info t Hc Hcl Hpr Hm' He Hr Hg | m' g info Hc Hcl Hpr Hm' He Hr Hg];
    unfold guard; rewrite ?Hp, ?Hc, ?Hcl; try reflexivity; try congruence.
  - assert (m' = m) as -> by congruence. by rewrite He.
  - assert (m' = m) as -> by congruence. by rewrite He, Hg.
  - assert (m' = m) as -> by congruence. by rewrite He, Hg.
Qed.

End HandlerMore.

(** X5: the handler keeps the agreement between [model_info] and [model]:
    if, before a request, a [model_info] that says "loaded" describes the
    object bound to [model], the same holds after the request, however it
    ends. *)
Theorem transcribe_audio_keeps_model_described env req w :
  model_described w ->
  model_described (transcribe_audio env req w).2.
Proof.
  intros Hd.
  destruct (transcribe_audio env req w) as [out w'] eqn:Hrun. simpl.
  apply transcribe_audio_run in Hrun.
  assert (Hens : forall re w1, ensure_run env w re w1 -> model_described w1).
  { intros re w1 He. destruct He as [Hl | lr w2 Hl Hload Hs | lr w2 Hl Hload Hs].
    - exact Hd.
    - apply load_model_run in Hload.
      destruct (load_run_state env _ _ _ _ _ Hload) as (Hok & _).
      destruct (Hok Hs) as (m & Hm & Hmi & _).
      intros _. exists m. rewrite Hmi. by repeat split.
    - apply load_model_run in Hload.
      destruct (load_run_state env _ _ _ _ _ Hload) as (_ & Hfail).
      destruct (Hfail Hs) as (_ & Hmi & _).
      intros Hl'. rewrite Hmi in Hl'. discriminate. }
  destruct Hrun as [e w1 He | w1 out w' He Hs]; [by eapply Hens |].
  specialize (Hens _ _ He).
  destruct Hs as [t Ht | rb w3 rc w4 Ht Hbeq Hb Hceq Hc]; [exact Hens |].
  destruct (body_run_globals env _ _ _ _ _ Hb) as (Hm3 & Hmi3 & _).
  destruct (cleanup_run_globals env _ _ _ _ Hc) as (Hm4 & Hmi4).
  unfold model_described. rewrite Hm4, Hmi4, Hm3, Hmi3. exact Hens.
Qed.

(** X6: once the model is there and the temporary file is created, with
    [os.unlink] working and no [print] raising, the outcome of a request is
    decided by the first call that raises, in the order copying, closing,
    the engine call, pulling the segments: the handler raises
    [HTTPException(500, text)] with the text of that exception; when none
    raises it returns the response built from what the engine gave. *)
Theorem request_outcome_by_first_fault env req w w1 m :
  ensure_model env w = (Return tt, w1) ->
  model w1 = Some m ->
  tempfile_fault env = None ->
  unlink_fault env = None ->
  (forall text, print_fault env text = None) ->
  (transcribe_audio env req w).1 =
  match copyfileobj_fault env with
  | Some t => Raise (HTTPException 500 t)
  | None =>
      match close_fault env with
      | Some t => Raise (HTTPException 500 t)
      | None =>
          match engine_call env req m (staged_path env req) with
          | Raise t => Raise (HTTPException 500 t)
          | Return (g, info) =>
              match gen_fault g with
              | Some t => Raise (HTTPException 500 t)
              | None =>
                  Return (response_of env (model_info w1) info (gen_items g)
                            (time_time env (length (trace w1) + 3))
                            (time_time env (length (trace w1) + 4)))
              end
          end
      end
  end.
Proof.
  intros He Hm Ht Hu Hp.
  rewrite (transcribe_audio_staged env req w w1 He).
  destruct (transcribe_staged env req w1) as [out w'] eqn:Hrun. simpl.
  apply transcribe_staged_run in Hrun.
  destruct Hrun as [t Ht' | rb w3 rc w4 _ Hbeq Hb Hceq Hc]; [congruence |].
  destruct (cleanup_run_facts env _ _ _ _ Hu Hc) as (-> & _).
  simpl finish.
  rewrite (body_run_outcome env req _ _ _ _ m Hp Hb) by exact Hm.
  simpl. rewrite length_app. simpl length.
  replace (length (trace w1) + 1 + 2)%nat with (length (trace w1) + 3)%nat by lia.
  replace (length (trace w1) + 1 + 3)%nat with (length (trace w1) + 4)%nat by lia.
  reflexivity.
Qed.

(** X7: when creating the temporary file raises, that exception leaves the
    handler as it is (it is not turned into an [HTTPException]); nothing was
    staged, the engine was not called and the [finally] block did not run:
    the world is the one the model check left. *)
Theorem tempfile_failure_uncaught env req w w1 t :
  ensure_model env w = (Return tt, w1) ->
  tempfile_fault env = Some t ->
  transcribe_audio env req w = (Raise (Exception t), w1).
Proof.
  intros He Ht.
  rewrite (transcribe_audio_staged env req w w1 He).
  destruct (transcribe_staged env req w1) as [out w'] eqn:Hrun.
  apply transcribe_staged_run in Hrun.
  destruct Hrun as [t' Ht' | rb w3 rc w4 Ht' Hbeq Hb Hceq Hc]; [| congruence].
  congruence.
Qed.

(** X8: a request that finds the model loaded never calls the constructor
    and leaves [model] and [model_info] as they were, however it ends. *)
Theorem ready_request_never_reloads env req w :
  loaded (model_info w) = true ->
  exists evs,
    trace (transcribe_audio env req w).2 = trace w ++ evs /\
    List.filter is_construct evs = [] /\
    model (transcribe_audio env req w).2 = model w /\
    model_info (transcribe_audio env req w).2 = model_info w.
Proof.
  intros Hl.
  destruct (transcribe_audio env req w) as [out w'] eqn:Hrun. simpl.
  apply transcribe_audio_run in Hrun.
  destruct Hrun as [e w1 He | w1 out w' He Hs].
  { by destruct (ensure_run_globals env _ _ _ He Hl). }
  destruct (ensure_run_globals env _ _ _ He Hl) as (-> & _).
  destruct Hs as [t Ht | rb w3 rc w4 Ht Hbeq Hb Hceq Hc].
  { exists []. by rewrite app_nil_r. }
  destruct (body_run_facts env _ _ _ _ _ Hb)
    as (evs_b & Hb_tr & _ & _ & Hb_cons & _).
  destruct (body_run_globals env _ _ _ _ _ Hb) as (Hm3 & Hmi3 & _).
  destruct (cleanup_run_globals env _ _ _ _ Hc) as (Hm4 & Hmi4).
  assert (exists evs_c, trace w4 = trace w3 ++ evs_c /\
                        List.filter is_construct evs_c = []) as (evs_c & Hc_tr & Hc_cons).
  { destruct Hc; simpl; eexists; split; reflexivity. }
  exists ([EvCreateTemp (staged_path env req)] ++ evs_b ++ evs_c).
  split; [| split; [| split]].
  - rewrite Hc_tr, Hb_tr. simpl. by rewrite <- !app_assoc.
  - by rewrite !List.filter_app, Hb_cons, Hc_cons.
  - by rewrite Hm4, Hm3.
  - by rewrite Hmi4, Hmi3.
Qed.

(** X9: when nothing else touches the temporary directory while the engine
    runs and [os.unlink] works, a request leaves the directory as it was
    after the model check, without its own staged file: it removes no other
    file and leaves none behind. *)
Theorem request_touches_only_its_file env req w w1 :
  ensure_model env w = (Return tt, w1) ->
  tempfile_fault env = None ->
  unlink_fault env = None ->
  (forall f, fs_interference env f = f) ->
  fs (transcribe_audio env req w).2 = fs w1 ∖ {[staged_path env req]} /\
  fs w1 = fs w.
Proof.
  intros He Ht Hu Hid.
  destruct (ensure_run_facts env _ _ _ (ensure_model_run env _ _ _ He)) as (_ & Hfs & _).
  split; [| exact Hfs].
  rewrite (transcribe_audio_staged env req w w1 He).
  destruct (transcribe_staged env req w1) as [out w'] eqn:Hrun. simpl.
  apply transcribe_staged_run in Hrun.
  destruct Hrun as [t Ht' | rb w3 rc w4 _ Hbeq Hb Hceq Hc]; [congruence |].
  rewrite (cleanup_run_fs env _ _ _ _ Hu Hc).
  destruct (body_run_globals env _ _ _ _ _ Hb) as (_ & _ & Hfs3).
  rewrite Hid in Hfs3.
  assert (fs w3 = {[staged_path env req]} ∪ fs w1) as -> by (by destruct Hfs3).
  apply set_eq. intros p.
  rewrite !elem_of_difference, elem_of_union, elem_of_singleton. tauto.
Qed.

Section ResponseMore.

Variable env : Env.

(** A staged request that returned: where its response comes from, and
    what it left in the globals. *)
Lemma transcribe_staged_success req w1 r w' :
  transcribe_staged env req w1 = (Return r, w') ->
  exists m g info t0 t1,
    model w1 = Some m /\
    engine_call env req m (staged_path env req) = Return (g, info) /\
    gen_fault g = None /\
    r = response_of env (model_info w1) info (gen_items g) t0 t1 /\
    model w' = model w1 /\
    model_info w' = model_info w1.
Proof.
  intros H. apply transcribe_staged_run in H.
  remember (Return r : Outcome Exn Response) as out eqn:Hout.
  destruct H as [t Ht | rb w3 rc w4 Ht Hbeq Hb Hceq Hc]; [discriminate |].
  destruct rc as [[] | e]; simpl in Hout; [| discriminate].
  destruct (body_run_globals env _ _ _ _ _ Hb) as (Hm3 & Hmi3 & _).
  destruct (cleanup_run_globals env _ _ _ _ Hc) as (Hm4 & Hmi4).
  rewrite Hm3 in Hm4. rewrite Hmi3 in Hmi4. simpl in Hm4, Hmi4.
  clear Hc Hceq Hbeq Hm3 Hmi3.
  destruct Hb as [| | | | | | | m g info Hcopy Hclose Hprint Hm Heng Hrep Hgen];
    unfold guard in Hout;
    try (destruct (print_fault env _); discriminate).
  injection Hout as <-. simpl in Hm.
  exists m, g, info. do 2 eexists. by repeat split.
Qed.

(** The model check from a state without a model, when the default load
    works. *)
Lemma ensure_model_loads w lr w1 :
  loaded (model_info w) = false ->
  load_model env (E:=Exn) (py "large-v3") (py "cuda") w = (Return lr, w1) ->
  success lr = true ->
  ensure_model env w = (Return tt, w1).
Proof.
  intros Hl Hload Hs.
  unfold ensure_model, default_model_size, default_device.
  cbv beta iota delta [bind get_model_info]. rewrite Hl.
  cbv beta iota delta [negb]. rewrite Hload, Hs. reflexivity.
Qed.

Lemma lstrip_head_nonspace (s : pystr) (c : N) :
  head (lstrip s) = Some c -> isspace c = false.
Proof.
  induction s as [| b s IH]; simpl; [done |].
  destruct (isspace b) eqn:Hb; [exact IH |]. simpl. congruence.
Qed.

Lemma lstrip_snoc_nonspace (s : pystr) (a : N) :
  isspace a = false -> lstrip (s ++ [a]) = lstrip s ++ [a].
Proof.
  intros Ha. induction s as [| b s IH]; simpl.
  - by rewrite Ha.
  - by destruct (isspace b).
Qed.

Lemma rstrip_cons_nonspace (a : N) (s : pystr) :
  isspace a = false -> rstrip (a :: s) = a :: rstrip s.
Proof.
  intros Ha. unfold rstrip. simpl rev.
  rewrite lstrip_snoc_nonspace by exact Ha.
  by rewrite rev_app_distr.
Qed.

Lemma last_rev_head {A : Type} (l : list A) : last (rev l) = head l.
Proof.
  destruct l as [| a l]; [reflexivity |]. simpl. by rewrite last_snoc.
Qed.

(** What [strip] returns neither starts nor ends with white space. *)
Lemma strip_ends (s : pystr) :
  (forall c, head (strip s) = Some c -> isspace c = false) /\
  (forall c, last (strip s) = Some c -> isspace c = false).
Proof.
  unfold strip. split; intros c Hc.
  - destruct (lstrip s) as [| a r] eqn:Hs; [discriminate |].
    assert (Ha : isspace a = false) by (apply (lstrip_head_nonspace s); by rewrite Hs).
    rewrite rstrip_cons_nonspace in Hc by exact Ha.
    simpl in Hc. congruence.
  - unfold rstrip in Hc. rewrite last_rev_head in Hc.
    by apply lstrip_head_nonspace in Hc.
Qed.

End ResponseMore.

(** X10: a response carries one record per segment the engine yielded, in
    the engine's order, with [start], [end] and [text] copied unchanged;
    its ["language"] is the language the engine reported, whatever language
    the request asked for; its ["model"] and ["device"] are those of
    [model_info] as the request leaves it. *)
Theorem response_copies_engine_output env req w r w' :
  transcribe_audio env req w = (Return r, w') ->
  exists m g info,
    model w' = Some m /\
    engine_call env req m (staged_path env req) = Return (g, info) /\
    r_success r = true /\
    r_language r = language info /\
    r_model r = size (model_info w') /\
    r_device r = device (model_info w') /\
    Forall2 (fun s d => sd_start d = start s /\ sd_end d = end_ s /\ sd_text d = text s)
            (gen_items g) (r_segments r).
Proof.
  intros H. unfold transcribe_audio, bind in H.
  destruct (ensure_model env w) as [[[] | e] w1]; [| discriminate].
  destruct (transcribe_staged_success env req w1 r w' H)
    as (m & g & info & t0 & t1 & Hm & Heng & _ & -> & Hm' & Hmi').
  exists m, g, info. rewrite Hm', Hmi'.
  repeat split; try done.
  rewrite response_segments. apply Forall2_map_self. intros s.
  apply segment_dict_fields.
Qed.

(** X11: a request that arrives before any model is loaded, when the
    accelerated construction raises and the fallback works, is served by
    the fallback engine: the engine called is the ["small"] one on ["cpu"],
    the response says so, and the model stays loaded for the requests that
    follow. *)
Theorem cold_start_served_by_fallback env req w e r w' :
  loaded (model_info w) = false ->
  construct_fault env (py "large-v3") (py "cuda") (py "float16") = Some e ->
  construct_fault env (py "small") (py "cpu") (py "int8") = None ->
  transcribe_audio env req w = (Return r, w') ->
  r_model r = py "small" /\
  r_device r = py "cpu" /\
  model_info w' = {| size := py "small"; device := py "cpu"; loaded := true |} /\
  model w' = Some (cpu_model (py "small")) /\
  exists g info,
    engine_call env req (cpu_model (py "small")) (staged_path env req) = Return (g, info).
Proof.
  intros Hl H1 H2 H.
  pose proof (load_model_gpu_fallback env Exn (py "large-v3") w e H1 H2) as Hload.
  rewrite (transcribe_audio_staged env req w _
             (ensure_model_loads env w _ _ Hl Hload eq_refl)) in H.
  destruct (transcribe_staged_success env req _ r w' H)
    as (m & g & info & t0 & t1 & Hm & Heng & _ & -> & Hm' & Hmi').
  simpl in Hm, Hm', Hmi'. injection Hm as <-.
  repeat split; try done. by exists g, info.
Qed.

(** X12: the ["text"] of a response neither starts nor ends with a white
    space character. *)
Theorem response_text_has_no_outer_space env req w r w' :
  transcribe_audio env req w = (Return r, w') ->
  (forall c, head (r_text r) = Some c -> isspace c = false) /\
  (forall c, last (r_text r) = Some c -> isspace c = false).
Proof.
  intros H.
  destruct (transcribe_audio_success env req w r w' H)
    as (w1 & m & g & info & t0 & t1 & evs_c & _ & _ & _ & _ & _ & -> & _).
  unfold response_of; simpl. apply strip_ends.
Qed.

(** X13: after any call of [load_model], [GET /] reports ["model_loaded"]
    equal to the ["success"] of that call and shows [model_info] exactly
    when the load succeeded; it changes nothing. *)
Theorem read_root_after_load env model_size dev w :
  exists r w1,
    load_model env (E:=Exn) model_size dev w = (Return r, w1) /\
    read_root (E:=Exn) w1 =
      (Return {| status := py "running";
                 model_loaded := success r;
                 root_model_info := if success r then Some (model_info w1) else None;
                 version := py "1.0.0" |}, w1).
Proof.
  destruct (load_model_runs env Exn model_size dev w) as (r & w1 & Hrun & Hcase).
  exists r, w1. split; [exact Hrun |].
  destruct (load_run_flag env _ _ _ _ _ Hcase) as (Hflag & _).
  unfold read_root, bind, get_model_info, ret. by rewrite Hflag.
Qed.


(** X15: when the line with the file name cannot be printed, the request
    ends there: the exception of [print] is caught like any other of the
    [try] block, the handler raises [HTTPException(500, text)] with its
    text, the engine is not called, and the temporary file, already
    written and closed, is removed. *)
Theorem unprintable_filename_skips_engine env req w w1 t :
  ensure_model env w = (Return tt, w1) ->
  tempfile_fault env = None ->
  copyfileobj_fault env = None ->
  close_fault env = None ->
  print_fault env (py "Transcribing file: " ++ audio_filename req) = Some t ->
  print_fault env (py "Transcribe error: " ++ t) = None ->
  unlink_fault env = None ->
  (transcribe_audio env req w).1 = Raise (HTTPException 500 t) /\
  trace (transcribe_audio env req w).2 =
    trace w1 ++ [EvCreateTemp (staged_path env req);
                 EvCopy (staged_path env req);
                 EvClose (staged_path env req);
                 EvExists (staged_path env req) true;
                 EvUnlink (staged_path env req)] /\
  staged_path env req ∉ fs (transcribe_audio env req w).2.
Proof.
  intros He Ht Hc Hcl Hp Hpe Hu.
  rewrite (transcribe_audio_staged env req w w1 He).
  destruct (transcribe_staged env req w1) as [out w'] eqn:Hrun. simpl.
  apply transcribe_staged_run in Hrun.
  destruct Hrun as [t' Ht' | rb w3 rc w4 _ Hbeq Hb Hceq Hcr]; [congruence |].
  unfold file_line in *.
  destruct Hb as
      [t' Hc' | t' Hc' Hcl' | t' Hc' Hcl' Hp' | Hc' Hcl' Hp' Hno | m' t' Hc' Hcl' Hp' Hm' He'
       | m' g info t' Hc' Hcl' Hp' Hm' He' Hr
       | m' g info t' Hc' Hcl' Hp' Hm' He' Hr Hg | m' g info Hc' Hcl' Hp' Hm' He' Hr Hg];
    unfold file_line in *; try congruence.
  assert (t' = t) as -> by congruence.
  unfold guard. rewrite Hpe.
  destruct Hcr as [Hout | Hin Hu' | Hin t' Hu']; simpl in *.
  - exfalso. apply Hout. apply elem_of_union_l. by apply elem_of_singleton.
  - split; [reflexivity |]. split; [by rewrite <- !app_assoc |].
    intros [_ Hn]%elem_of_difference. apply Hn. by apply elem_of_singleton.
  - congruence.
Qed.

(** ** Concrete runs of the further properties *)

(** Switching to ["base"] on the CPU from a cold start. *)
Lemma api_load_model_cpu_single_attempt_witness :
  exists r w',
    api_load_model (E:=Exn) hello_env switch_to_base cold_world = (Return r, w') /\
    trace w' = trace cold_world ++
               [EvConstruct (mr_model_size switch_to_base) (py "cpu") (py "int8")] /\
    match construct_fault hello_env (mr_model_size switch_to_base) (py "cpu") (py "int8") with
    | None =>
        r = {| success := true;
               message := Some (py "Successfully loaded CPU model: "
                                ++ mr_model_size switch_to_base);
               error := None |} /\
        model_info w' = {| size := mr_model_size switch_to_base;
                           device := py "cpu"; loaded := true |}
    | Some e =>
        r = {| success := false;
               message := None;
               error := Some (py "CPU model load failed: " ++ e) |} /\
        model_info w' = no_model_info
    end.
Proof.
  apply (api_load_model_cpu_single_attempt hello_env switch_to_base cold_world).
  - vm_compute. discriminate.
  - reflexivity.
Defined.

(** The default load from a cold start without an accelerated device. *)
Lemma load_model_constructor_calls_witness :
  exists r w' evs,
    load_model hello_env (E:=Exn) (py "large-v3") (py "cuda") cold_world = (Return r, w') /\
    trace w' = trace cold_world ++ evs /\
    fs w' = fs cold_world /\
    (evs = [EvConstruct (py "large-v3") (py "cuda") (py "float16")] /\
       py "cuda" = py "cuda" /\
       construct_fault hello_env (py "large-v3") (py "cuda") (py "float16") = None
     \/
     evs = [EvConstruct (py "large-v3") (py "cuda") (py "float16");
            EvConstruct (py "small") (py "cpu") (py "int8")] /\
       py "cuda" = py "cuda" /\
       construct_fault hello_env (py "large-v3") (py "cuda") (py "float16") <> None
     \/
     evs = [EvConstruct (py "large-v3") (py "cpu") (py "int8")] /\
       py "cuda" <> py "cuda").
Proof.
  apply (load_model_constructor_calls hello_env (py "large-v3") (py "cuda") cold_world).
  reflexivity.
Defined.

(** A reload that fails while the fallback model is loaded. *)
Lemma failed_load_keeps_model_witness :
  model (load_model dead_env (E:=Exn) (py "large-v3") (py "cuda") warm_world).2 =
    model warm_world /\
  model_info (load_model dead_env (E:=Exn) (py "large-v3") (py "cuda") warm_world).2 =
    no_model_info /\
  message {| success := false; message := None;
             error := Some (py "Model load failed: " ++ py "out of memory") |} = None /\
  is_Some (error {| success := false; message := None;
                    error := Some (py "Model load failed: " ++ py "out of memory") |}).
Proof.
  apply (failed_load_keeps_model dead_env (py "large-v3") (py "cuda") warm_world
           {| success := false; message := None;
              error := Some (py "Model load failed: " ++ py "out of memory") |}
           (load_model dead_env (E:=Exn) (py "large-v3") (py "cuda") warm_world).2).
  - vm_compute; reflexivity.
  - reflexivity.
Defined.


(** A request in [hello_env] with the fallback model loaded. *)
Lemma transcribe_audio_keeps_model_described_witness :
  model_described (transcribe_audio hello_env (upload true) warm_world).2.
Proof.
  apply (transcribe_audio_keeps_model_described hello_env (upload true) warm_world).
  intros _. exists (cpu_model (py "small")). repeat split; reflexivity.
Defined.

(** A request in [hello_env], where no call raises. *)
Lemma request_outcome_by_first_fault_witness :
  (transcribe_audio hello_env (upload true) warm_world).1 =
  match copyfileobj_fault hello_env with
  | Some t => Raise (HTTPException 500 t)
  | None =>
      match close_fault hello_env with
      | Some t => Raise (HTTPException 500 t)
      | None =>
          match engine_call hello_env (upload true) (cpu_model (py "small"))
                  (staged_path hello_env (upload true)) with
          | Raise t => Raise (HTTPException 500 t)
          | Return (g, info) =>
              match gen_fault g with
              | Some t => Raise (HTTPException 500 t)
              | None =>
                  Return (response_of hello_env (model_info warm_world) info (gen_items g)
                            (time_time hello_env (length (trace warm_world) + 3))
                            (time_time hello_env (length (trace warm_world) + 4)))
              end
          end
      end
  end.
Proof.
  apply (request_outcome_by_first_fault hello_env (upload true) warm_world warm_world
           (cpu_model (py "small"))); reflexivity.
Defined.

(** The temporary directory cannot be written to. *)
Lemma tempfile_failure_uncaught_witness :
  transcribe_audio no_tmp_env (upload true) warm_world =
  (Raise (Exception (py "No usable temporary directory found")), warm_world).
Proof.
  apply (tempfile_failure_uncaught no_tmp_env (upload true) warm_world warm_world
           (py "No usable temporary directory found")); reflexivity.
Defined.

Lemma ready_request_never_reloads_witness :
  exists evs,
    trace (transcribe_audio hello_env (upload true) warm_world).2 = trace warm_world ++ evs /\
    List.filter is_construct evs = [] /\
    model (transcribe_audio hello_env (upload true) warm_world).2 = model warm_world /\
    model_info (transcribe_audio hello_env (upload true) warm_world).2 = model_info warm_world.
Proof.
  apply (ready_request_never_reloads hello_env (upload true) warm_world).
  reflexivity.
Defined.

Lemma request_touches_only_its_file_witness :
  fs (transcribe_audio hello_env (upload true) warm_world).2 =
    fs warm_world ∖ {[staged_path hello_env (upload true)]} /\
  fs warm_world = fs warm_world.
Proof.
  apply (request_touches_only_its_file hello_env (upload true) warm_world warm_world).
  - reflexivity.
  - reflexivity.
  - reflexivity.
  - intros f. reflexivity.
Defined.

Lemma response_copies_engine_output_witness :
  exists m g info,
    model (hello_after true) = Some m /\
    engine_call hello_env (upload true) m (staged_path hello_env (upload true)) =
      Return (g, info) /\
    r_success hello_response = true /\
    r_language hello_response = language info /\
    r_model hello_response = size (model_info (hello_after true)) /\
    r_device hello_response = device (model_info (hello_after true)) /\
    Forall2 (fun s d => sd_start d = start s /\ sd_end d = end_ s /\ sd_text d = text s)
            (gen_items g) (r_segments hello_response).
Proof.
  apply (response_copies_engine_output hello_env (upload true) warm_world
           hello_response (hello_after true)).
  vm_compute; reflexivity.
Defined.

(** The first request after a start without an accelerated device. *)
Lemma cold_start_served_by_fallback_witness :
  r_model cold_response = py "small" /\
  r_device cold_response = py "cpu" /\
  model_info (transcribe_audio hello_env (upload true) cold_world).2 =
    {| size := py "small"; device := py "cpu"; loaded := true |} /\
  model (transcribe_audio hello_env (upload true) cold_world).2 =
    Some (cpu_model (py "small")) /\
  exists g info,
    engine_call hello_env (upload true) (cpu_model (py "small"))
      (staged_path hello_env (upload true)) = Return (g, info).
Proof.
  apply (cold_start_served_by_fallback hello_env (upload true) cold_world
           (py "CUDA driver not found") cold_response
           (transcribe_audio hello_env (upload true) cold_world).2).
  - reflexivity.
  - reflexivity.
  - reflexivity.
  - vm_compute; reflexivity.
Defined.

Lemma response_text_has_no_outer_space_witness :
  (forall c, head (r_text hello_response) = Some c -> isspace c = false) /\
  (forall c, last (r_text hello_response) = Some c -> isspace c = false).
Proof.
  apply (response_text_has_no_outer_space hello_env (upload true) warm_world
           hello_response (hello_after true)).
  vm_compute; reflexivity.
Defined.

(** An upload whose file name holds a surrogate, on a UTF-8 standard
    output. *)
Lemma unprintable_filename_skips_engine_witness :
  (transcribe_audio utf8_env upload_surrogate warm_world).1 =
    Raise (HTTPException 500
             (py "'utf-8' codec can't encode character: surrogates not allowed")) /\
  trace (transcribe_audio utf8_env upload_surrogate warm_world).2 =
    trace warm_world ++ [EvCreateTemp (staged_path utf8_env upload_surrogate);
                         EvCopy (staged_path utf8_env upload_surrogate);
                         EvClose (staged_path utf8_env upload_surrogate);
                         EvExists (staged_path utf8_env upload_surrogate) true;
                         EvUnlink (staged_path utf8_env upload_surrogate)] /\
  staged_path utf8_env upload_surrogate ∉
    fs (transcribe_audio utf8_env upload_surrogate warm_world).2.
Proof.
  apply (unprintable_filename_skips_engine utf8_env upload_surrogate warm_world warm_world
           (py "'utf-8' codec can't encode character: surrogates not allowed"));
    reflexivity.
Defined.
